(** * url-to-pdf-api: the render pipeline

    A shallow embedding of [src/http/pdf-http.js] (the HTTP handlers and the
    existing-PDF resolver), of the older resolver kept in the second source
    unit, and of the render core ([render], [scrollPage]), together with the
    properties of the specification that concern them.

    Conventions.
    - JavaScript values are the inductive type [value]; objects are
      association lists in insertion order, read with [getField].
    - Strings are [string]s of one-byte characters; [toLowerCase] is the
      lower-casing of the letters A-Z, which is all that a test for the
      suffix [pdf] can see.
    - Numbers are integers: the code compares and passes numbers on and
      computes with none of the options.
    - Asynchronous code is sequential here: every [await] is a call to a
      collaborator that either returns or throws, and each call is logged. *)

From Stdlib Require Import ZArith List String Ascii Bool Lia.
Import ListNotations.

Local Open Scope string_scope.
Local Open Scope Z_scope.

(* ================================================================== *)
(** ** JavaScript values *)

Module JS.

#[local] Set Warnings "-register-all".

Inductive value : Type :=
| VUndef
| VNull
| VBool (b : bool)
| VNum (n : Z)
| VStr (s : string)
| VObj (fields : list (string * value)).

(** An object: own enumerable properties, in insertion order.  Two things
    of JS objects are not modelled: keys that read as integers, which JS
    lists first, and the key [__proto__], which [_.merge] does not copy as
    it copies the others. *)
Definition obj : Type := list (string * value).

Fixpoint lookup (k : string) (o : obj) : option value :=
  match o with
  | [] => None
  | (k', v) :: rest => if String.eqb k k' then Some v else lookup k rest
  end.

(** [key in object] *)
Definition has (k : string) (o : obj) : bool :=
  match lookup k o with Some _ => true | None => false end.

(** [object[key]] on an object *)
Definition getField (k : string) (o : obj) : value :=
  match lookup k o with Some v => v | None => VUndef end.

(** [object[key] = v]: overwrite in place, or append a new property. *)
Fixpoint setField (k : string) (v : value) (o : obj) : obj :=
  match o with
  | [] => [(k, v)]
  | (k', v') :: rest =>
      if String.eqb k k' then (k', v) :: rest else (k', v') :: setField k v rest
  end.

(** ToBoolean *)
Definition truthy (v : value) : bool :=
  match v with
  | VUndef | VNull => false
  | VBool b => b
  | VNum n => negb (Z.eqb n 0)
  | VStr s => negb (String.eqb s "")
  | VObj _ => true
  end.

Definition isString (v : value) : bool :=
  match v with VStr _ => true | _ => false end.

Definition isNumber (v : value) : bool :=
  match v with VNum _ => true | _ => false end.

Definition isObject (v : value) : bool :=
  match v with VObj _ => true | _ => false end.

(** lodash [_.get(v, 'k')] with a one-segment path: [undefined] on anything
    that is not an object holding [k]. *)
Definition get (v : value) (k : string) : value :=
  match v with
  | VObj o => getField k o
  | _ => VUndef
  end.

(** [_.get(v, path)] for a path of several segments. *)
Fixpoint getPath (p : list string) (v : value) : value :=
  match p with
  | [] => v
  | k :: p' => getPath p' (get v k)
  end.

(** *** lodash [_.merge]

    [assignMergeValue(object, key, value)]: an [undefined] value is written
    only when the key is missing; any other value is written.  (The source
    also skips the write when [object[key]] already is that value, which
    leaves the object as it is.) *)
Definition assignMergeValue (object : obj) (key : string) (v : value) : obj :=
  match v with
  | VUndef => if has key object then object else setField key VUndef object
  | _ => setField key v object
  end.

(** [baseMergeDeep]'s new value for one key: a plain-object source value is
    merged into the destination's object (or into a fresh [{}] when the
    destination holds no object there); any other source value is taken as
    it is. *)
Fixpoint mergeValue (objValue srcValue : value) {struct srcValue} : value :=
  match srcValue with
  | VObj sfs =>
      let newValue := match objValue with VObj ofs => ofs | _ => [] end in
      VObj ((fix baseFor (fs : obj) (object : obj) {struct fs} : obj :=
               match fs with
               | [] => object
               | (key, sv) :: rest =>
                   baseFor rest
                     (assignMergeValue object key
                        (mergeValue (getField key object) sv))
               end) sfs newValue)
  | _ => srcValue
  end.

(** [baseMerge(object, source)]: every key of the source, in order. *)
Fixpoint baseMerge (object source : obj) {struct source} : obj :=
  match source with
  | [] => object
  | (key, sv) :: rest =>
      baseMerge
        (assignMergeValue object key (mergeValue (getField key object) sv))
        rest
  end.

(** [_.merge(object, source)] *)
Definition merge (object source : obj) : obj := baseMerge object source.

End JS.

Import JS.

(* ================================================================== *)
(** ** Effects: collaborator calls, exceptions, the call log *)

(** What an [await]ed call of a collaborator (puppeteer, node-fetch) does:
    it returns, or its promise rejects with some reason. *)
Inductive outcome (A : Type) : Type :=
| Ok (a : A)
| Fail (reason : string).
Arguments Ok {A} a.
Arguments Fail {A} reason.

Inductive error : Type :=
| TypeError                                   (* raised by the JS runtime *)
| HttpError (status : Z) (message : string)   (* raised by ex.throwStatus *)
| Rejected (reason : string).                 (* a collaborator's rejection *)

Definition bytes : Type := list Byte.byte.

(** Every observable call, in program order. *)
Inductive event : Type :=
| EvConsoleLog (v : value)
| EvLaunch
| EvNewPage
| EvSetViewport (viewport : value)
| EvEmulateMedia (mode : string)
| EvWaitFor (arg : value)
| EvGoto (target policy : value)
| EvEvaluateScroll
| EvPdf (policy : value)
| EvClose
| EvFetchHead (url : string)
| EvRedirect (url : value)
| EvAttachment (name : value)
| EvSet (header content : string)
| EvSend (data : bytes).

Inductive result (A : Type) : Type :=
| Return (a : A)
| Throw (e : error).
Arguments Return {A} a.
Arguments Throw {A} e.

(** A computation: the calls it made and how it ended. *)
Definition M (A : Type) : Type := (list event * result A)%type.

Definition ret {A} (a : A) : M A := ([], Return a).

Definition throw {A} (e : error) : M A := ([], Throw e).

Definition bind {A B} (m : M A) (f : A -> M B) : M B :=
  match m with
  | (t, Return a) => let (t', r) := f a in ((t ++ t')%list, r)
  | (t, Throw e) => (t, Throw e)
  end.

(** [await collaborator.call(...)] *)
Definition call {A} (ev : event) (o : outcome A) : M A :=
  ([ev], match o with Ok a => Return a | Fail reason => Throw (Rejected reason) end).

(** A call whose result is not a promise (console, the express response). *)
Definition emit (ev : event) : M unit := ([ev], Return tt).

Definition trace {A} (m : M A) : list event := fst m.

Definition outcome_of {A} (m : M A) : result A := snd m.

Declare Scope js_scope.
Delimit Scope js_scope with js.
Notation "x <- m ;; k" := (bind m (fun x => k))
  (at level 100, m at next level, right associativity) : js_scope.
Notation "m ;;; k" := (bind m (fun _ => k))
  (at level 100, right associativity) : js_scope.
Local Open Scope js_scope.

(** Property access [v.k]: throws on [undefined] and [null]. *)
Definition member (v : value) (k : string) : M value :=
  match v with
  | VObj o => ret (getField k o)
  | VUndef | VNull => throw TypeError
  | _ => ret VUndef
  end.

(* ================================================================== *)
(** ** The render core: [render] and [scrollPage] *)

Module PdfCore.

(** The browser collaborator.  [render] calls each operation at most once,
    so a function of the arguments describes a whole session. *)
Record Puppeteer : Type := {
  launch : outcome unit;
  newPage : outcome unit;
  setViewport : value -> outcome unit;
  emulateMedia : string -> outcome unit;
  waitFor : value -> outcome unit;
  goto : value -> value -> outcome unit;
  evaluate : outcome unit;      (* the promise of the scroll script *)
  pdf : value -> outcome bytes;
  close : outcome unit
}.

(** The object literal that [render] merges the caller's options into. *)
Definition defaultOpts : obj :=
  [ ("scrollPage", VBool false);
    ("emulateMedia", VBool false);
    ("viewport", VObj [("width", VNum 1600); ("height", VNum 1200)]);
    ("goto", VObj [("waitUntil", VStr "networkidle");
                   ("networkIdleTimeout", VNum 2000)]);
    ("pdf", VObj [("format", VStr "A4"); ("printBackground", VBool true)]) ].

(** [_.merge(defaults, _opts)].  A missing argument is [{}], and [null],
    booleans and numbers contribute no keys.  Strings, whose characters
    lodash would copy under index keys, are not passed by any caller: both
    routes pass an object. *)
Definition mergeOpts (_opts : value) : obj :=
  match _opts with
  | VObj o => merge defaultOpts o
  | _ => defaultOpts
  end.

Section Render.
Variable browser : Puppeteer.

Definition scrollPage : M unit :=
  call EvEvaluateScroll (evaluate browser).

Definition render (_opts : value) : M bytes :=
  let opts := mergeOpts _opts in
  emit (EvConsoleLog (VObj opts)) ;;;
  call EvLaunch (launch browser) ;;;
  call EvNewPage (newPage browser) ;;;
  call (EvSetViewport (getField "viewport" opts))
       (setViewport browser (getField "viewport" opts)) ;;;
  (if truthy (getField "emulateMedia" opts)
   then call (EvEmulateMedia "screen") (emulateMedia browser "screen")
   else ret tt) ;;;
  (if isNumber (getField "waitFor" opts) || isString (getField "waitFor" opts)
   then call (EvWaitFor (getField "waitFor" opts))
             (waitFor browser (getField "waitFor" opts))
   else ret tt) ;;;
  call (EvGoto (getField "url" opts) (getField "goto" opts))
       (goto browser (getField "url" opts) (getField "goto" opts)) ;;;
  (if truthy (getField "scrollPage" opts) then scrollPage else ret tt) ;;;
  data <- call (EvPdf (getField "pdf" opts))
               (pdf browser (getField "pdf" opts)) ;;
  call EvClose (close browser) ;;;
  ret data.

End Render.

End PdfCore.

(* ================================================================== *)
(** ** The in-page scroll script of [scrollPage]

    The function handed to [page.evaluate] runs in the page: it arms a
    30000 ms timer that rejects the promise, then scrolls down every 200 ms
    until the bottom of the document is near, scrolls back to the top and
    resolves the promise 500 ms later.  Time is logical: a timer fires
    exactly when it is due, timers due at the same instant fire in the order
    they were set, and a callback takes no time. *)

Module ScrollScript.

(** The page as the script sees it.  [elapse dt] is what the page does on
    its own while the script sleeps for [dt] ms (content may load). *)
Record Window (page : Type) : Type := {
  innerHeight : page -> Z;
  pageYOffset : page -> Z;
  scrollHeight : page -> Z;                (* document.body.scrollHeight *)
  scrollBy : Z -> page -> page;            (* window.scrollBy(0, dy) *)
  scrollTo : Z -> page -> page;            (* window.scrollTo(0, y) *)
  elapse : Z -> page -> page
}.
Arguments innerHeight {page}.
Arguments pageYOffset {page}.
Arguments scrollHeight {page}.
Arguments scrollBy {page}.
Arguments scrollTo {page}.
Arguments elapse {page}.

Inductive callback : Type := CbReject | CbResolve | CbScrollDown.

Record timer : Type := { due : Z; cb : callback }.

Inductive settlement : Type := Resolved | TimedOut.

(** The page's event loop while the promise is pending. *)
Record loop (page : Type) : Type := {
  now : Z;
  win : page;
  timers : list timer;                     (* by due time, then by age *)
  settled : option (settlement * Z)        (* how and when the promise settled *)
}.
Arguments now {page}.
Arguments win {page}.
Arguments timers {page}.
Arguments settled {page}.

Definition scrollInterval : Z := 200.

Definition bottomThreshold : Z := 400.

(** Queue a timer behind those that are due no later. *)
Fixpoint enqueue (t : timer) (q : list timer) : list timer :=
  match q with
  | [] => [t]
  | t' :: q' => if due t <? due t' then t :: q else t' :: enqueue t q'
  end.

Section Script.
Context {page : Type} (W : Window page).

(** [setTimeout(f, delay)] *)
Definition setTimeout (f : callback) (delay : Z) (st : loop page) : loop page :=
  {| now := now st; win := win st;
     timers := enqueue {| due := now st + delay; cb := f |} (timers st);
     settled := settled st |}.

Definition withWin (w : page) (st : loop page) : loop page :=
  {| now := now st; win := w; timers := timers st; settled := settled st |}.

(** [resolve()] and [reject()]: only the first call settles the promise. *)
Definition settle (s : settlement) (st : loop page) : loop page :=
  match settled st with
  | Some _ => st
  | None => {| now := now st; win := win st; timers := timers st;
               settled := Some (s, now st) |}
  end.

Definition bottomPos (w : page) : Z := pageYOffset W w + innerHeight W w.

(** The stop test of [scrollDown]. *)
Definition nearBottom (w : page) : bool :=
  scrollHeight W w - bottomPos w <? bottomThreshold.

Definition scrollDown (scrollStep : Z) (st : loop page) : loop page :=
  let w := scrollBy W scrollStep (win st) in
  if nearBottom w
  then setTimeout CbResolve 500 (withWin (scrollTo W 0 w) st)
  else setTimeout CbScrollDown scrollInterval (withWin w st).

(** The promise executor: [setTimeout(reject, 30000); scrollDown()]. *)
Definition executor (w : page) : loop page :=
  let scrollStep := innerHeight W w - 400 in
  scrollDown scrollStep
    (setTimeout CbReject 30000
       {| now := 0; win := w; timers := []; settled := None |}).

(** The event loop runs the next timer. *)
Definition tick (scrollStep : Z) (st : loop page) : loop page :=
  match timers st with
  | [] => st
  | t :: q =>
      let st' := {| now := due t; win := elapse W (due t - now st) (win st);
                    timers := q; settled := settled st |} in
      match cb t with
      | CbReject => settle TimedOut st'
      | CbResolve => settle Resolved st'
      | CbScrollDown => scrollDown scrollStep st'
      end
  end.

(** [await] of the promise: run timers until it is settled. *)
Fixpoint await (fuel : nat) (scrollStep : Z) (st : loop page) : option (loop page) :=
  match settled st with
  | Some _ => Some st
  | None =>
      match fuel with
      | O => None
      | S fuel' => await fuel' scrollStep (tick scrollStep st)
      end
  end.

(** The script, from the page it starts on to the settled promise. *)
Definition script (fuel : nat) (w : page) : option (loop page) :=
  await fuel (innerHeight W w - 400) (executor w).

(** The page just before the [i]-th call of [scrollBy] (counted from 0), as
    long as the loop has not stopped before: [i] scroll steps, each followed
    by a sleep of [scrollInterval]. *)
Fixpoint beforeScroll (scrollStep : Z) (i : nat) (w : page) : page :=
  match i with
  | O => w
  | S i' => elapse W scrollInterval (scrollBy W scrollStep (beforeScroll scrollStep i' w))
  end.

(** The page right after the [i]-th call of [scrollBy]. *)
Definition scrolled (i : nat) (w : page) : page :=
  let scrollStep := innerHeight W w - 400 in
  scrollBy W scrollStep (beforeScroll scrollStep i w).

(** The stop test at the [i]-th scroll step of the page [w]. *)
Definition stopsAt (i : nat) (w : page) : bool := nearBottom (scrolled i w).

(** The loop as [scrollDown] finds it at time [t]: only the timeout armed. *)
Definition armed (t : Z) (w : page) : loop page :=
  {| now := t; win := w; timers := [{| due := 30000; cb := CbReject |}];
     settled := None |}.

End Script.

(** A document of fixed height in a viewport of fixed height: scrolling is
    clamped to the scrollable range and nothing loads over time. *)
Definition staticDocument (viewportHeight documentHeight : Z) : Window Z :=
  let clamp y := Z.max 0 (Z.min y (documentHeight - viewportHeight)) in
  {| innerHeight := fun _ => viewportHeight;
     pageYOffset := fun y => y;
     scrollHeight := fun _ => documentHeight;
     scrollBy := fun dy y => clamp (y + dy);
     scrollTo := fun y _ => clamp y;
     elapse := fun _ y => y |}.

End ScrollScript.

(* ================================================================== *)
(** ** Strings and the regular expressions of the resolver *)

Module Str.

(** [s.endsWith(suffix)]: some tail of [s] is [suffix]. *)
Fixpoint endsWith (s suffix : string) : bool :=
  String.eqb s suffix
  || match s with
     | EmptyString => false
     | String _ s' => endsWith s' suffix
     end.

Definition lowerChar (c : ascii) : ascii :=
  let n := nat_of_ascii c in
  if (Nat.leb 65 n && Nat.leb n 90)%bool then ascii_of_nat (n + 32) else c.

(** [s.toLowerCase()] *)
Fixpoint toLowerCase (s : string) : string :=
  match s with
  | EmptyString => EmptyString
  | String c s' => String (lowerChar c) (toLowerCase s')
  end.

(** The rest of [s] after the literal [p], when [s] starts with it. *)
Fixpoint stripPrefix (p s : string) : option string :=
  match p with
  | EmptyString => Some s
  | String a p' =>
      match s with
      | EmptyString => None
      | String b s' => if Ascii.eqb a b then stripPrefix p' s' else None
      end
  end.

(** [\d] *)
Definition isDigit (c : ascii) : bool :=
  let n := nat_of_ascii c in (Nat.leb 48 n && Nat.leb n 57)%bool.

(** Greedy [\d*]: the digits [s] starts with, and what follows them. *)
Fixpoint spanDigits (s : string) : string * string :=
  match s with
  | EmptyString => (EmptyString, EmptyString)
  | String c s' =>
      if isDigit c
      then let (d, r) := spanDigits s' in (String c d, r)
      else (EmptyString, s)
  end.

(** [/\.pdf$/], without the [m] flag: [$] is the end of the input. *)
Definition isPDFPattern (s : string) : bool := endsWith s ".pdf".

(** [(\d+\.\d+)] at the start of [s]: the text it captures.  Both [\d+] are
    greedy, and giving back digits cannot help: the character after a
    shorter run is again a digit. *)
Definition matchId (s : string) : option string :=
  let (d1, r1) := spanDigits s in
  match d1, r1 with
  | String _ _, String "." r2 =>
      match spanDigits r2 with
      | (String c d2, _) => Some (d1 ++ "." ++ String c d2)
      | _ => None
      end
  | _, _ => None
  end.

(** [(abs|pdf)\/(\d+\.\d+)] at the start of [s]: capture groups 1 and 2. *)
Definition matchAbsOrPdfId (s : string) : option (string * string) :=
  match stripPrefix "abs/" s with
  | Some r => option_map (fun id => ("abs", id)) (matchId r)
  | None =>
      match stripPrefix "pdf/" s with
      | Some r => option_map (fun id => ("pdf", id)) (matchId r)
      | None => None
      end
  end.

(** [/^\/(abs|pdf)\/(\d+\.\d+)/] of pdf-http.js, on the URL's pathname. *)
Definition arxivIdPattern (pathname : string) : option (string * string) :=
  match stripPrefix "/" pathname with
  | Some r => matchAbsOrPdfId r
  | None => None
  end.

(** [.] of a regular expression: any character but a line terminator. *)
Definition isLineTerminator (c : ascii) : bool :=
  (Ascii.eqb c "010" || Ascii.eqb c "013")%bool.

(** [/^https{0,1}:\/\/arxiv.org\/(abs|pdf)\/(\d+\.\d+)/] of the earlier
    resolver, on the whole URL.  The dot of [arxiv.org] is not escaped. *)
Definition arxivUrlPattern (url : string) : option (string * string) :=
  match stripPrefix "http" url with
  | None => None
  | Some r0 =>
      let r1 := match stripPrefix "s" r0 with Some r => r | None => r0 end in
      match stripPrefix "://arxiv" r1 with
      | Some (String c r2) =>
          if isLineTerminator c then None
          else match stripPrefix "org/" r2 with
               | Some r3 => matchAbsOrPdfId r3
               | None => None
               end
      | _ => None
      end
  end.

(** The text of [s] before the first character that satisfies [stop], and
    the rest from that character on. *)
Fixpoint breakAt (stop : ascii -> bool) (s : string) : string * string :=
  match s with
  | EmptyString => (EmptyString, EmptyString)
  | String c s' =>
      if stop c then (EmptyString, s)
      else let (a, b) := breakAt stop s' in (String c a, b)
  end.

Definition allChars (p : ascii -> bool) (s : string) : bool :=
  forallb p (list_ascii_of_string s).

End Str.

(* ================================================================== *)
(** ** URLs *)

Module Url.

(** The parts of a parsed [URL] that the resolver reads or writes.
    [authority] is the serialized scheme, [//], credentials, host and port,
    so that [href] is the concatenation of the four serialized parts. *)
Record URL : Type := {
  authority : string;
  hostname : string;
  pathname : string;
  search : string;
  hash : string
}.

(** [url.toString()] *)
Definition toString (u : URL) : string :=
  authority u ++ pathname u ++ search u ++ hash u.

(** [url.pathname = p] *)
Definition setPathname (p : string) (u : URL) : URL :=
  {| authority := authority u; hostname := hostname u; pathname := p;
     search := search u; hash := hash u |}.

Definition isHostChar (c : ascii) : bool :=
  let n := nat_of_ascii c in
  ((Nat.leb 48 n && Nat.leb n 57) || (Nat.leb 65 n && Nat.leb n 90)
   || (Nat.leb 97 n && Nat.leb n 122) || Ascii.eqb c "-" || Ascii.eqb c ".")%bool.

Definition isPathEnd (c : ascii) : bool :=
  (Ascii.eqb c "?" || Ascii.eqb c "#")%bool.

Definition isHostEnd (c : ascii) : bool :=
  (Ascii.eqb c "/" || isPathEnd c)%bool.

(** [new URL(s)] on plain web addresses: an [http://] or [https://] scheme
    in lower case, a host of letters, digits, [-] and [.] with neither
    credentials nor port, then path, query and fragment taken as they are
    written.  Any other input is outside this parser ([None]); the
    properties below hold for every parser and use this one for examples. *)
Definition parsePlain (s : string) : option URL :=
  let scheme :=
    match Str.stripPrefix "https://" s with
    | Some r => Some ("https://", r)
    | None =>
        match Str.stripPrefix "http://" s with
        | Some r => Some ("http://", r)
        | None => None
        end
    end in
  match scheme with
  | None => None
  | Some (sch, r) =>
      let (host, afterHost) := Str.breakAt isHostEnd r in
      if (negb (String.eqb host "") && Str.allChars isHostChar host)%bool then
        let (path, afterPath) := Str.breakAt isPathEnd afterHost in
        let (query, fragment) := Str.breakAt (fun c => Ascii.eqb c "#") afterPath in
        Some {| authority := sch ++ Str.toLowerCase host;
                hostname := Str.toLowerCase host;
                pathname := if String.eqb path "" then "/" else path;
                search := if String.eqb query "?" then "" else query;
                hash := if String.eqb fragment "#" then "" else fragment |}
      else None
  end.

End Url.

(* ================================================================== *)
(** ** The HTTP layer: the resolver and the two routes *)

(** The response of the HEAD request, as far as the resolver reads it:
    [headers.get('content-type')], [null] when the header is missing. *)
Record Response : Type := { contentType : option string }.

(** An express request: headers, parsed body, parsed query string. *)
Record Request : Type := {
  headers : obj;
  body : value;
  query : obj
}.

(** [x != null] *)
Definition notNullish (v : value) : bool :=
  match v with
  | VUndef | VNull => false
  | _ => true
  end.

(** [x === 'literal'] *)
Definition isTheString (v : value) (s : string) : bool :=
  match v with
  | VStr s' => String.eqb s' s
  | _ => false
  end.

(** The HEAD probe that ends both resolvers. *)
Definition probe (fetchHead : string -> outcome Response) (url : string) : M value :=
  headRequest <- call (EvFetchHead url) (fetchHead url) ;;
  match contentType headRequest with
  | None => throw TypeError                (* null.toLowerCase() *)
  | Some ct =>
      if Str.endsWith (Str.toLowerCase ct) "pdf" then ret (VStr url) else ret VNull
  end.

Module PdfHttp.

Section Resolver.
Variable parseURL : string -> option Url.URL.        (* new URL(raw_url) *)
Variable fetchHead : string -> outcome Response.     (* fetch(_, {method: 'HEAD'}) *)

(** The [switch (url.hostname)]: [Some] is a [return], [None] the fall
    through to the probe. *)
Definition knownSite (url : Url.URL) : option string :=
  if String.eqb (Url.hostname url) "arxiv.org" then
    match Str.arxivIdPattern (Url.pathname url) with
    | Some (_, id) => Some ("https://arxiv.org/pdf/" ++ id)
    | None => None
    end
  else if String.eqb (Url.hostname url) "openreview.net" then
    if (String.eqb (Url.pathname url) "/forum" || String.eqb (Url.pathname url) "/pdf")%bool
    then Some (Url.toString (Url.setPathname "/pdf" url))
    else None
  else None.

(** [getExistingPdfUrl(raw_url)] of src/http/pdf-http.js.  The [logger.info]
    calls are left out. *)
Definition getExistingPdfUrl (raw_url : value) : M value :=
  match raw_url with
  | VStr s =>
      if Str.isPDFPattern s then ret (VStr s)
      else
        match parseURL s with
        | None => throw TypeError            (* new URL throws on a bad URL *)
        | Some url =>
            match knownSite url with
            | Some pdfUrl => ret (VStr pdfUrl)
            | None => probe fetchHead s
            end
        end
  | _ => throw TypeError                     (* no [match] method to call *)
  end.

End Resolver.

End PdfHttp.

Module PdfHttpEarlier.

Section Resolver.
Variable fetchHead : string -> outcome Response.

(** [getExistingPdfUrl(url)] as the second source unit has it: the arXiv
    pattern is matched against the whole URL and there is no table of
    hosts. *)
Definition getExistingPdfUrl (url : value) : M value :=
  match url with
  | VStr s =>
      if Str.isPDFPattern s then ret (VStr s)
      else
        match Str.arxivUrlPattern s with
        | Some (_, id) => ret (VStr ("https://arxiv.org/pdf/" ++ id))
        | None => probe fetchHead s
        end
  | _ => throw TypeError
  end.

End Resolver.

End PdfHttpEarlier.

(** The two routes.  Both source units have them word for word; they differ
    in the [getExistingPdfUrl] the routes call, which is a parameter here.
    [ex.createRoute] (src/util/express.js, not among the sources) wraps the
    handler; a route is modelled by its handler, and what the handler throws
    is the failure of the request. *)
Module Routes.

(** Modelled from the spec: [ex.throwStatus] of src/util/express.js, which
    is not among the sources.  The error it throws carries the HTTP status
    and the message of the response ("responds 400 with message ..."). *)
Definition throwStatus {A} (status : Z) (message : string) : M A :=
  throw (HttpError status message).

Definition getOptsFromQuery (query : obj) : obj :=
  [ ("url", getField "url" query);
    ("attachmentName", getField "attachmentName" query);
    ("scrollPage", getField "scrollPage" query);
    ("emulateScreenMedia", getField "emulateScreenMedia" query);
    ("ignoreHttpsErrors", getField "ignoreHttpsErrors" query);
    ("waitFor", getField "waitFor" query);
    ("viewport", VObj
       [ ("width", getField "viewport.width" query);
         ("height", getField "viewport.height" query);
         ("deviceScaleFactor", getField "viewport.deviceScaleFactor" query);
         ("isMobile", getField "viewport.isMobile" query);
         ("hasTouch", getField "viewport.hasTouch" query);
         ("isLandscape", getField "viewport.isLandscape" query) ]);
    ("goto", VObj
       [ ("timeout", getField "goto.timeout" query);
         ("waitUntil", getField "goto.waitUntil" query);
         ("networkIdleInflight", getField "goto.networkIdleInflight" query);
         ("networkIdleTimeout", getField "goto.networkIdleTimeout" query) ]);
    ("pdf", VObj
       [ ("scale", getField "pdf.scale" query);
         ("displayHeaderFooter", getField "pdf.displayHeaderFooter" query);
         ("landscape", getField "pdf.landscape" query);
         ("pageRanges", getField "pdf.pageRanges" query);
         ("format", getField "pdf.format" query);
         ("width", getField "pdf.width" query);
         ("height", getField "pdf.height" query);
         ("margin", VObj
            [ ("top", getField "pdf.margin.top" query);
              ("right", getField "pdf.margin.right" query);
              ("bottom", getField "pdf.margin.bottom" query);
              ("left", getField "pdf.margin.left" query) ]);
         ("printBackground", getField "pdf.printBackground" query) ]) ].

Section Handlers.
Variable getExistingPdfUrl : value -> M value.
Variable browser : PdfCore.Puppeteer.

(** The [.then((data) => ...)] both routes end with. *)
Definition sendPdf (opts : value) (data : bytes) : M unit :=
  attachmentName <- member opts "attachmentName" ;;
  (if truthy attachmentName then emit (EvAttachment attachmentName) else ret tt) ;;;
  emit (EvSet "content-type" "application/pdf") ;;;
  emit (EvSend data).

(** From [const existingPdfUrl = await getExistingPdfUrl(opts.url)] on. *)
Definition redirectOrRender (opts : value) : M unit :=
  url <- member opts "url" ;;
  existingPdfUrl <- getExistingPdfUrl url ;;
  if notNullish existingPdfUrl then emit (EvRedirect existingPdfUrl)
  else
    data <- PdfCore.render browser opts ;;
    sendPdf opts data.

Definition getRender (req : Request) : M unit :=
  let opts := VObj (getOptsFromQuery (query req)) in
  redirectOrRender opts.

Definition postRender (req : Request) : M unit :=
  let isBodyJson := isTheString (getField "content-type" (headers req)) "application/json" in
  (if isBodyJson then
     let hasContent :=
       (isString (get (body req) "url") || isString (get (body req) "html"))%bool in
     if negb hasContent
     then throwStatus 400 "Body must contain url or html"
     else ret tt
   else if isString (getField "url" (query req))
     then throwStatus 400 "url query parameter is not allowed when body is HTML"
     else ret tt) ;;;
  let opts :=
    if isBodyJson then body req                               (* _.cloneDeep *)
    else VObj (setField "html" (body req) (getOptsFromQuery (query req))) in
  redirectOrRender opts.

End Handlers.

End Routes.

(** The routes of src/http/pdf-http.js. *)
Definition getRender (parseURL : string -> option Url.URL)
    (fetchHead : string -> outcome Response) (browser : PdfCore.Puppeteer)
    (req : Request) : M unit :=
  Routes.getRender (PdfHttp.getExistingPdfUrl parseURL fetchHead) browser req.

Definition postRender (parseURL : string -> option Url.URL)
    (fetchHead : string -> outcome Response) (browser : PdfCore.Puppeteer)
    (req : Request) : M unit :=
  Routes.postRender (PdfHttp.getExistingPdfUrl parseURL fetchHead) browser req.

(** The same route over the earlier resolver. *)
Definition postRenderEarlier (fetchHead : string -> outcome Response)
    (browser : PdfCore.Puppeteer) (req : Request) : M unit :=
  Routes.postRender (PdfHttpEarlier.getExistingPdfUrl fetchHead) browser req.

(* ================================================================== *)
(** ** Collaborators for the examples *)

Module Mock.

Import PdfCore.

(** A browser in which every call succeeds and [pdf] yields [data]. *)
Definition healthy (data : bytes) : Puppeteer :=
  {| launch := Ok tt; newPage := Ok tt;
     setViewport := fun _ => Ok tt;
     emulateMedia := fun _ => Ok tt;
     waitFor := fun _ => Ok tt;
     goto := fun _ _ => Ok tt;
     evaluate := Ok tt;
     pdf := fun _ => Ok data;
     close := Ok tt |}.

(** Failure injection, one per step of [render] between opening the page
    and closing the browser. *)
Inductive step : Type :=
| StepViewport | StepMedia | StepWaitFor | StepGoto | StepScroll | StepPdf.

Definition failing (s : step) (data : bytes) : Puppeteer :=
  {| launch := Ok tt; newPage := Ok tt;
     setViewport := fun _ => match s with StepViewport => Fail "viewport" | _ => Ok tt end;
     emulateMedia := fun _ => match s with StepMedia => Fail "media" | _ => Ok tt end;
     waitFor := fun _ => match s with StepWaitFor => Fail "waitFor" | _ => Ok tt end;
     goto := fun _ _ => match s with StepGoto => Fail "navigation" | _ => Ok tt end;
     evaluate := match s with StepScroll => Fail "scroll" | _ => Ok tt end;
     pdf := fun _ => match s with StepPdf => Fail "export" | _ => Ok data end;
     close := Ok tt |}.

(** A browser whose page is [w] in the window [W]: [page.evaluate] of the
    scroll script ends as the script does there; everything else succeeds. *)
Definition showing {page : Type} (W : ScrollScript.Window page) (w : page)
    (data : bytes) : Puppeteer :=
  {| launch := Ok tt; newPage := Ok tt;
     setViewport := fun _ => Ok tt;
     emulateMedia := fun _ => Ok tt;
     waitFor := fun _ => Ok tt;
     goto := fun _ _ => Ok tt;
     evaluate :=
       match option_map ScrollScript.settled (ScrollScript.script W 151 w) with
       | Some (Some (ScrollScript.Resolved, _)) => Ok tt
       | _ => Fail "Evaluation failed"
       end;
     pdf := fun _ => Ok data;
     close := Ok tt |}.

(** A server that answers every HEAD request with the given content type. *)
Definition answering (ct : option string) : string -> outcome Response :=
  fun _ => Ok {| contentType := ct |}.

(** A network on which every request fails. *)
Definition offline : string -> outcome Response :=
  fun _ => Fail "ENOTFOUND".

Definition pdfBytes : bytes := [Byte.x25; Byte.x50; Byte.x44; Byte.x46].

(** Options that reach every optional step of [render]. *)
Definition fullOpts : value :=
  VObj [ ("url", VStr "https://example.com/");
         ("emulateMedia", VBool true);
         ("waitFor", VNum 100);
         ("scrollPage", VBool true) ].

End Mock.

(** How often the browser was closed. *)
Definition isClose (ev : event) : bool :=
  match ev with EvClose => true | _ => false end.

Definition closeCount (t : list event) : nat :=
  List.length (filter isClose t).

Definition isReturn {A} (r : result A) : bool :=
  match r with Return _ => true | Throw _ => false end.

(* ================================================================== *)
(** ** Vocabulary of the properties *)

(** A value whose objects have no key twice, as every JS object does. *)
Inductive wf : value -> Prop :=
| wf_undef : wf VUndef
| wf_null : wf VNull
| wf_bool b : wf (VBool b)
| wf_num n : wf (VNum n)
| wf_str s : wf (VStr s)
| wf_obj fs :
    NoDup (map fst fs) ->
    (forall k v, In (k, v) fs -> wf v) ->
    wf (VObj fs).

(** What [object[key]] holds once [_.merge] has seen the source value [s]
    for that key, when it held [d] before. *)
Definition merged (d s : value) : value :=
  match s with
  | VUndef => d
  | _ => mergeValue d s
  end.

(** Along the path [p], the value [v] has objects (or nothing at all) where
    the path goes through a group: no group is given as a number, a string,
    a boolean or [null]. *)
Fixpoint plainAlong (p : list string) (v : value) : Prop :=
  match p with
  | [] => True
  | k :: p' =>
      match v with
      | VUndef => True
      | VObj fs => plainAlong p' (getField k fs)
      | _ => False
      end
  end.

(** The defaults the specification documents, leaf by leaf. *)
Definition documentedDefaults : list (list string * value) :=
  [ (["scrollPage"], VBool false);
    (["emulateScreenMedia"], VBool false);
    (["viewport"; "width"], VNum 1600);
    (["viewport"; "height"], VNum 1200);
    (["goto"; "waitUntil"], VStr "networkidle");
    (["goto"; "networkIdleTimeout"], VNum 2000);
    (["pdf"; "format"], VStr "A4");
    (["pdf"; "printBackground"], VBool true) ].

Definition startsWithDigit (s : string) : bool :=
  match s with
  | EmptyString => false
  | String c _ => Str.isDigit c
  end.

Definition isEmulateMedia (ev : event) : bool :=
  match ev with EvEmulateMedia _ => true | _ => false end.

Definition isBrowserCall (ev : event) : bool :=
  match ev with
  | EvLaunch | EvNewPage | EvSetViewport _ | EvEmulateMedia _ | EvWaitFor _
  | EvGoto _ _ | EvEvaluateScroll | EvPdf _ | EvClose => true
  | _ => false
  end.

(** No exception of the HTTP-status kind. *)
Definition noHttpError {A} (m : M A) : Prop :=
  forall status message, outcome_of m <> Throw (HttpError status message).

(** The result of a call without its value. *)
Definition ignore {A} (o : outcome A) : outcome unit :=
  match o with
  | Ok _ => Ok tt
  | Fail reason => Fail reason
  end.

(** How the browser answers the calls that [render] makes before
    [browser.close()], in the order of the source: launch, newPage,
    setViewport, emulateMedia and waitFor where their conditions hold,
    goto, the scroll script where [opts.scrollPage] is truthy, pdf. *)
Definition stepsBeforeClose (browser : PdfCore.Puppeteer) (_opts : value)
    : list (outcome unit) :=
  let opts := PdfCore.mergeOpts _opts in
  ([ PdfCore.launch browser;
     PdfCore.newPage browser;
     PdfCore.setViewport browser (getField "viewport" opts) ]
   ++ (if truthy (getField "emulateMedia" opts)
       then [PdfCore.emulateMedia browser "screen"] else [])
   ++ (if (isNumber (getField "waitFor" opts)
           || isString (getField "waitFor" opts))%bool
       then [PdfCore.waitFor browser (getField "waitFor" opts)] else [])
   ++ [ PdfCore.goto browser (getField "url" opts) (getField "goto" opts) ]
   ++ (if truthy (getField "scrollPage" opts)
       then [PdfCore.evaluate browser] else [])
   ++ [ ignore (PdfCore.pdf browser (getField "pdf" opts)) ])%list.

(** The reason of the first call that is rejected, if any is. *)
Fixpoint firstFailure (steps : list (outcome unit)) : option string :=
  match steps with
  | [] => None
  | Ok _ :: rest => firstFailure rest
  | Fail reason :: _ => Some reason
  end.

(** No object of the value has a key [__proto__].  lodash does not treat
    that key as it treats the others; values that hold it are outside
    [mergeValue]. *)
Fixpoint protoFree (v : value) : bool :=
  match v with
  | VObj fs =>
      (fix all (l : obj) : bool :=
         match l with
         | [] => true
         | (k, x) :: rest =>
             (negb (String.eqb k "__proto__") && protoFree x && all rest)%bool
         end) fs
  | _ => true
  end.

Definition isRedirect (ev : event) : bool :=
  match ev with EvRedirect _ => true | _ => false end.


(** The calls of [render] that come after the navigation. *)
Definition afterNavigation (ev : event) : bool :=
  match ev with
  | EvEvaluateScroll | EvPdf _ | EvClose => true
  | _ => false
  end.

(** The option leaves that [getOptsFromQuery] reads, as paths into the
    nested options; the query key of a path joins its segments with dots. *)
Definition queryPaths : list (list string) :=
  [ ["url"]; ["attachmentName"]; ["scrollPage"]; ["emulateScreenMedia"];
    ["ignoreHttpsErrors"]; ["waitFor"];
    ["viewport"; "width"]; ["viewport"; "height"];
    ["viewport"; "deviceScaleFactor"]; ["viewport"; "isMobile"];
    ["viewport"; "hasTouch"]; ["viewport"; "isLandscape"];
    ["goto"; "timeout"]; ["goto"; "waitUntil"];
    ["goto"; "networkIdleInflight"]; ["goto"; "networkIdleTimeout"];
    ["pdf"; "scale"]; ["pdf"; "displayHeaderFooter"]; ["pdf"; "landscape"];
    ["pdf"; "pageRanges"]; ["pdf"; "format"]; ["pdf"; "width"];
    ["pdf"; "height"];
    ["pdf"; "margin"; "top"]; ["pdf"; "margin"; "right"];
    ["pdf"; "margin"; "bottom"]; ["pdf"; "margin"; "left"];
    ["pdf"; "printBackground"] ].

Definition queryKey (p : list string) : string := String.concat "." p.

(** Whether the promise of the scroll script resolved. *)
Definition resolves {page : Type} (W : ScrollScript.Window page)
    (fuel : nat) (w : page) : bool :=
  match option_map ScrollScript.settled (ScrollScript.script W fuel w) with
  | Some (Some (ScrollScript.Resolved, _)) => true
  | _ => false
  end.

(* ================================================================== *)
(** ** Objects and [_.merge] *)

Lemma lookup_setField_same k v o : lookup k (setField k v o) = Some v.
Proof.
  induction o as [|[k' v'] o IH]; simpl.
  - now rewrite String.eqb_refl.
  - destruct (String.eqb k k') eqn:E; simpl; rewrite E; auto.
Qed.

Lemma lookup_setField_other k k' v o :
  k <> k' -> lookup k (setField k' v o) = lookup k o.
Proof.
  intros Hne. induction o as [|[k1 v1] o IH]; simpl.
  - destruct (String.eqb k k') eqn:E; auto.
    apply String.eqb_eq in E. contradiction.
  - destruct (String.eqb k' k1) eqn:E1; simpl.
    + apply String.eqb_eq in E1. subst k1.
      destruct (String.eqb k k') eqn:E; auto.
      apply String.eqb_eq in E. contradiction.
    + now rewrite IH.
Qed.

Lemma setField_fresh k v o :
  lookup k o = None -> setField k v o = (o ++ [(k, v)])%list.
Proof.
  induction o as [|[k' v'] o IH]; simpl; intros H; auto.
  destruct (String.eqb k k'); [discriminate|]. now rewrite IH.
Qed.

Lemma lookup_notin k o : ~ In k (map fst o) -> lookup k o = None.
Proof.
  induction o as [|[k' v'] o IH]; simpl; intros H; auto.
  destruct (String.eqb k k') eqn:E.
  - apply String.eqb_eq in E. subst. tauto.
  - apply IH. tauto.
Qed.

Lemma lookup_In k v o : lookup k o = Some v -> In (k, v) o.
Proof.
  induction o as [|[k' v'] o IH]; simpl; intros H; [discriminate|].
  destruct (String.eqb k k') eqn:E.
  - apply String.eqb_eq in E. inversion H. subst. now left.
  - right. now apply IH.
Qed.

Lemma getField_assign_same k v o :
  getField k (assignMergeValue o k v)
  = match v with VUndef => getField k o | _ => v end.
Proof.
  unfold assignMergeValue, getField, has.
  destruct v; simpl; rewrite ?lookup_setField_same; auto.
  destruct (lookup k o) eqn:E; [now rewrite E|].
  now rewrite lookup_setField_same.
Qed.

Lemma getField_assign_other k k' v o :
  k <> k' -> getField k (assignMergeValue o k' v) = getField k o.
Proof.
  intros Hne. unfold assignMergeValue, getField.
  destruct v; rewrite ?lookup_setField_other; auto.
  destruct (has k' o); rewrite ?lookup_setField_other; auto.
Qed.

Lemma baseFor_baseMerge sfs :
  forall o,
    (fix baseFor (fs : obj) (object : obj) {struct fs} : obj :=
       match fs with
       | [] => object
       | (key, sv) :: rest =>
           baseFor rest
             (assignMergeValue object key
                (mergeValue (getField key object) sv))
       end) sfs o
    = baseMerge o sfs.
Proof.
  induction sfs as [|[k v] sfs IH]; intros o; [reflexivity|].
  cbn [baseMerge]. rewrite <- IH. reflexivity.
Qed.

Lemma mergeValue_obj d sfs :
  mergeValue d (VObj sfs)
  = VObj (baseMerge (match d with VObj o => o | _ => [] end) sfs).
Proof.
  rewrite <- baseFor_baseMerge. reflexivity.
Qed.

Lemma merged_mergeValue d v :
  match mergeValue d v with VUndef => d | _ => mergeValue d v end = merged d v.
Proof. destruct v; reflexivity. Qed.

Lemma getField_cons k k1 v o :
  getField k ((k1, v) :: o) = if String.eqb k k1 then v else getField k o.
Proof. unfold getField. simpl. now destruct (String.eqb k k1). Qed.

Lemma getField_notin k o : ~ In k (map fst o) -> getField k o = VUndef.
Proof. intros H. unfold getField. now rewrite lookup_notin. Qed.

(** One level of [_.merge]: key by key, the source wins unless it is
    [undefined], and objects are merged recursively. *)
Lemma getField_baseMerge k src :
  NoDup (map fst src) ->
  forall o, getField k (baseMerge o src) = merged (getField k o) (getField k src).
Proof.
  induction src as [|[k1 v1] src IH]; intros Hnd o.
  - reflexivity.
  - inversion Hnd as [|? ? Hnotin Hnd']; subst.
    cbn [baseMerge]. rewrite (IH Hnd'), getField_cons.
    destruct (String.eqb k k1) eqn:E.
    + apply String.eqb_eq in E. subst k1.
      rewrite (getField_notin _ _ Hnotin). cbn [merged].
      rewrite getField_assign_same. apply merged_mergeValue.
    + assert (k <> k1) by (intros ->; now rewrite String.eqb_refl in E).
      now rewrite getField_assign_other.
Qed.

Lemma getPath_undef p : getPath p VUndef = VUndef.
Proof. induction p; simpl; auto. Qed.

Lemma wf_getField k fs : wf (VObj fs) -> wf (getField k fs).
Proof.
  intros H. inversion H as [| | | | |? Hnd Hall]; subst.
  unfold getField. destruct (lookup k fs) eqn:E; [|constructor].
  eapply Hall, lookup_In, E.
Qed.

(** [_.merge] along a path: the leaf of the result is the leaf of the
    source unless that is [undefined], in which case it is the leaf of the
    destination. *)
Lemma getPath_merged p :
  forall s d, wf s -> plainAlong p s ->
  getPath p (merged d s) = merged (getPath p d) (getPath p s).
Proof.
  induction p as [|k p IH]; intros s d Hwf Hplain; simpl; auto.
  destruct s; simpl in Hplain; try contradiction.
  - simpl. now rewrite getPath_undef.
  - unfold merged at 1. rewrite mergeValue_obj. simpl.
    inversion Hwf as [| | | | |? Hnd Hall]; subst.
    rewrite (getField_baseMerge k fields Hnd).
    rewrite IH; auto using wf_getField.
    f_equal. destruct d; simpl; auto.
Qed.

Lemma baseMerge_fresh fs :
  (forall k v, In (k, v) fs -> mergeValue VUndef v = v) ->
  NoDup (map fst fs) ->
  forall acc,
    (forall k, In k (map fst fs) -> ~ In k (map fst acc)) ->
    baseMerge acc fs = (acc ++ fs)%list.
Proof.
  induction fs as [|[k v] fs IH]; intros Hclone Hnd acc Hdisj.
  - simpl. now rewrite app_nil_r.
  - inversion Hnd as [|? ? Hnotin Hnd']; subst.
    assert (Hk : lookup k acc = None)
      by (apply lookup_notin, Hdisj; now left).
    cbn [baseMerge].
    rewrite (getField_notin k acc) by (apply Hdisj; now left).
    rewrite (Hclone k v) by now left.
    assert (Hset : assignMergeValue acc k v = (acc ++ [(k, v)])%list).
    { unfold assignMergeValue, has. rewrite Hk.
      destruct v; now rewrite setField_fresh. }
    rewrite Hset, IH; auto.
    + now rewrite <- app_assoc.
    + intros k' v' Hin. apply (Hclone k' v'). now right.
    + intros k' Hin. rewrite map_app, in_app_iff. simpl.
      intros [H|[H|[]]].
      * apply (Hdisj k'); [now right | exact H].
      * subst k'. contradiction.
Qed.

(** Merging a well-formed value over a destination that holds no object
    there copies the value. *)
Lemma mergeValue_copy s :
  wf s -> forall d, isObject d = false -> mergeValue d s = s.
Proof.
  induction 1 as [| | | | |fs Hnd Hall IH]; intros d Hd; try reflexivity.
  rewrite mergeValue_obj.
  assert (Hfresh : baseMerge [] fs = fs).
  { rewrite baseMerge_fresh; auto.
    intros k v Hin. now apply (IH k v). }
  destruct d; try discriminate; now rewrite Hfresh.
Qed.

(** [render]'s options, leaf by leaf: whatever the caller supplies at a
    path wins, and a path the caller leaves [undefined] keeps what the
    object literal of [render] has there. *)
Lemma mergeOpts_leaf raw p :
  wf (VObj raw) -> plainAlong p (VObj raw) ->
  getPath p (VObj (PdfCore.mergeOpts (VObj raw)))
  = merged (getPath p (VObj PdfCore.defaultOpts)) (getPath p (VObj raw)).
Proof.
  intros Hwf Hplain.
  rewrite <- (getPath_merged p (VObj raw) (VObj PdfCore.defaultOpts) Hwf Hplain).
  unfold merged. now rewrite mergeValue_obj.
Qed.

Lemma mergeOpts_absent_leaf raw p :
  wf (VObj raw) -> plainAlong p (VObj raw) ->
  getPath p (VObj raw) = VUndef ->
  getPath p (VObj (PdfCore.mergeOpts (VObj raw)))
  = getPath p (VObj PdfCore.defaultOpts).
Proof.
  intros Hwf Hplain Habs. rewrite mergeOpts_leaf, Habs; auto.
Qed.

Lemma mergeOpts_supplied_leaf raw p :
  wf (VObj raw) -> plainAlong p (VObj raw) ->
  getPath p (VObj raw) <> VUndef ->
  isObject (getPath p (VObj PdfCore.defaultOpts)) = false ->
  getPath p (VObj (PdfCore.mergeOpts (VObj raw))) = getPath p (VObj raw).
Proof.
  intros Hwf Hplain Hsup Hleaf. rewrite mergeOpts_leaf; auto.
  assert (Hw : wf (getPath p (VObj raw))).
  { clear Hplain Hsup Hleaf. revert Hwf. generalize (VObj raw).
    induction p as [|k p IH]; intros v Hv; simpl; auto.
    apply IH. destruct v; simpl; try constructor. now apply wf_getField. }
  unfold merged. destruct (getPath p (VObj raw)) eqn:E; try reflexivity.
  - contradiction.
  - rewrite <- E in *. rewrite E at 1. rewrite <- E.
    now apply mergeValue_copy.
Qed.

(** Every documented default but [emulateScreenMedia] is the leaf that the
    object literal of [render] has at that path. *)
Lemma documentedDefaults_in_code p d :
  In (p, d) documentedDefaults -> p <> ["emulateScreenMedia"] ->
  getPath p (VObj PdfCore.defaultOpts) = d /\ isObject d = false.
Proof.
  unfold documentedDefaults. simpl.
  intros H Hp.
  repeat (destruct H as [H|H];
          [inversion H; subst; first [now split | contradiction]|]).
  contradiction.
Qed.

(** C4 (code defect, shared with C3).  The specification documents the
    default [emulateScreenMedia = false]; the object literal that [render]
    merges into names the key [emulateMedia] instead.  On the empty options
    object the normalized options hold no [emulateScreenMedia] at all
    ([undefined], not [false]) and an [emulateMedia = false] that no handler
    ever sets. *)
Theorem mergeOpts_misses_emulateScreenMedia :
  In (["emulateScreenMedia"], VBool false) documentedDefaults
  /\ getPath ["emulateScreenMedia"] (VObj (PdfCore.mergeOpts (VObj []))) = VUndef
  /\ getPath ["emulateMedia"] (VObj (PdfCore.mergeOpts (VObj []))) = VBool false.
Proof.
  split; [right; left; reflexivity|]. split; reflexivity.
Qed.

(** Falsy values a caller supplies survive the merge: [0] and [false] over
    the defaults [1600] and [true]. *)
Example mergeOpts_keeps_falsy :
  let raw := [ ("viewport", VObj [("width", VNum 0)]);
               ("pdf", VObj [("printBackground", VBool false)]) ] in
  let opts := VObj (PdfCore.mergeOpts (VObj raw)) in
  getPath ["viewport"; "width"] opts = VNum 0
  /\ getPath ["viewport"; "height"] opts = VNum 1200
  /\ getPath ["pdf"; "printBackground"] opts = VBool false
  /\ getPath ["pdf"; "format"] opts = VStr "A4".
Proof. repeat split. Qed.

(* ================================================================== *)
(** ** [render] *)

Lemma trace_bind {A B} (m : M A) (f : A -> M B) :
  trace (bind m f)
  = (trace m ++ match outcome_of m with
                | Return a => trace (f a)
                | Throw _ => []
                end)%list.
Proof.
  destruct m as [t [a|e]]; simpl.
  - now destruct (f a).
  - now rewrite app_nil_r.
Qed.

Lemma outcome_bind {A B} (m : M A) (f : A -> M B) :
  outcome_of (bind m f)
  = match outcome_of m with
    | Return a => outcome_of (f a)
    | Throw e => Throw e
    end.
Proof.
  destruct m as [t [a|e]]; simpl; auto. now destruct (f a).
Qed.

Ltac step_outcomes :=
  repeat match goal with
         | |- context [PdfCore.launch ?b] => destruct (PdfCore.launch b) as [[]|]
         | |- context [PdfCore.newPage ?b] => destruct (PdfCore.newPage b) as [[]|]
         | |- context [PdfCore.setViewport ?b ?v] =>
             destruct (PdfCore.setViewport b v) as [[]|]
         | |- context [PdfCore.emulateMedia ?b ?v] =>
             destruct (PdfCore.emulateMedia b v) as [[]|]
         | |- context [PdfCore.waitFor ?b ?v] =>
             destruct (PdfCore.waitFor b v) as [[]|]
         | |- context [PdfCore.goto ?b ?u ?p] =>
             destruct (PdfCore.goto b u p) as [[]|]
         | |- context [PdfCore.evaluate ?b] => destruct (PdfCore.evaluate b) as [[]|]
         | |- context [PdfCore.pdf ?b ?p] => destruct (PdfCore.pdf b p)
         | |- context [PdfCore.close ?b] => destruct (PdfCore.close b) as [[]|]
         | |- context [if ?c then _ else _] => destruct c
         end; cbn.

(** C1, as the code has it.  When every call that [render] makes before
    [browser.close()] succeeds, [close] is invoked exactly once, and
    [render] returns the bytes of the export or fails with the rejection of
    [close].  When one of those calls is rejected, [render] fails with the
    reason of the first rejected call and [close] is not invoked: the call
    of [close] is the last statement of a body with no [finally]. *)
Theorem render_closes_only_after_success (browser : PdfCore.Puppeteer) (_opts : value) :
  let r := PdfCore.render browser _opts in
  let steps := stepsBeforeClose browser _opts in
  (forall reason, firstFailure steps = Some reason ->
     outcome_of r = Throw (Rejected reason) /\ closeCount (trace r) = 0%nat)
  /\ (firstFailure steps = None ->
      closeCount (trace r) = 1%nat
      /\ exists data,
           PdfCore.pdf browser (getField "pdf" (PdfCore.mergeOpts _opts)) = Ok data
           /\ outcome_of r
              = match PdfCore.close browser with
                | Ok _ => Return data
                | Fail reason => Throw (Rejected reason)
                end).
Proof.
  unfold stepsBeforeClose, PdfCore.render, PdfCore.scrollPage.
  generalize (PdfCore.mergeOpts _opts) as opts. intros opts. cbv zeta.
  unfold closeCount, trace, outcome_of, bind, call, emit, ret, ignore.
  step_outcomes;
    (split;
     [ intros ? H; first [discriminate H | inversion H; subst; split; reflexivity]
     | intros H; first [discriminate H | split; [reflexivity | eexists; split; reflexivity]] ]).
Qed.

Lemma render_closes_only_after_success_witness :
  closeCount (trace (PdfCore.render (Mock.healthy Mock.pdfBytes) Mock.fullOpts)) = 1%nat
  /\ closeCount
       (trace (PdfCore.render (Mock.failing Mock.StepPdf Mock.pdfBytes) Mock.fullOpts))
     = 0%nat.
Proof.
  split.
  - apply (proj2 (render_closes_only_after_success
                    (Mock.healthy Mock.pdfBytes) Mock.fullOpts)).
    reflexivity.
  - apply (proj1 (render_closes_only_after_success
                    (Mock.failing Mock.StepPdf Mock.pdfBytes) Mock.fullOpts) "export").
    reflexivity.
Defined.

(** C1, as stated, fails: when navigation is rejected, [render] throws and
    the browser it launched is never closed. *)
Lemma render_navigation_failure_leaves_browser_open :
  let r := PdfCore.render (Mock.failing Mock.StepGoto Mock.pdfBytes) Mock.fullOpts in
  outcome_of r = Throw (Rejected "navigation")
  /\ closeCount (trace r) = 0%nat
  /\ closeCount (trace r) <> 1%nat.
Proof. repeat split. discriminate. Qed.

(** The same at every failure injection point between [newPage] and
    [close]. *)
Lemma render_failure_leaves_browser_open (s : Mock.step) :
  let r := PdfCore.render (Mock.failing s Mock.pdfBytes) Mock.fullOpts in
  isReturn (outcome_of r) = false /\ closeCount (trace r) = 0%nat.
Proof. destruct s; split; reflexivity. Qed.

(** Whatever the options hold, [render] navigates with
    [page.goto(opts.url, opts.goto)] and in no other way. *)
Lemma render_navigates_to_url (browser : PdfCore.Puppeteer) (_opts : value) target policy :
  In (EvGoto target policy) (trace (PdfCore.render browser _opts)) ->
  target = getField "url" (PdfCore.mergeOpts _opts)
  /\ policy = getField "goto" (PdfCore.mergeOpts _opts).
Proof.
  unfold PdfCore.render, PdfCore.scrollPage.
  generalize (PdfCore.mergeOpts _opts) as opts. intros opts. cbv zeta.
  unfold trace, bind, call, emit, ret.
  step_outcomes; simpl; intros H;
    repeat match goal with
           | H : _ \/ _ |- _ => destruct H as [H|H]
           | H : False |- _ => contradiction
           | H : EvGoto _ _ = EvGoto _ _ |- _ => inversion H; subst; now split
           | H : _ = EvGoto _ _ |- _ => discriminate H
           end.
Qed.

(** C2 (code defect).  [render] never reads [opts.html].  With only [html]
    set it calls [page.goto(undefined, ...)]; with both [url] and [html] set
    it navigates to the URL.  The inline markup is never loaded, although
    the POST route stores the request body in [opts.html] for it. *)
Theorem render_ignores_html :
  let policy := VObj [("waitUntil", VStr "networkidle"); ("networkIdleTimeout", VNum 2000)] in
  let viewport := VObj [("width", VNum 1600); ("height", VNum 1200)] in
  let pdf := VObj [("format", VStr "A4"); ("printBackground", VBool true)] in
  filter isBrowserCall
    (trace (PdfCore.render (Mock.healthy Mock.pdfBytes)
              (VObj [("html", VStr "<h1>Hello</h1>")])))
  = [EvLaunch; EvNewPage; EvSetViewport viewport; EvGoto VUndef policy; EvPdf pdf; EvClose]
  /\ filter isBrowserCall
       (trace (PdfCore.render (Mock.healthy Mock.pdfBytes)
                 (VObj [("url", VStr "https://example.com/");
                        ("html", VStr "<h1>Hello</h1>")])))
     = [EvLaunch; EvNewPage; EvSetViewport viewport;
        EvGoto (VStr "https://example.com/") policy; EvPdf pdf; EvClose].
Proof. split; reflexivity. Qed.

(** Media emulation is switched exactly when [opts.emulateMedia] is truthy,
    once the page is open and sized. *)
Lemma render_emulates_on_emulateMedia (browser : PdfCore.Puppeteer) (_opts : value) :
  PdfCore.launch browser = Ok tt -> PdfCore.newPage browser = Ok tt ->
  PdfCore.setViewport browser (getField "viewport" (PdfCore.mergeOpts _opts)) = Ok tt ->
  existsb isEmulateMedia (trace (PdfCore.render browser _opts))
  = truthy (getField "emulateMedia" (PdfCore.mergeOpts _opts)).
Proof.
  unfold PdfCore.render, PdfCore.scrollPage.
  generalize (PdfCore.mergeOpts _opts) as opts. intros opts. cbv zeta.
  intros -> -> ->.
  unfold trace, bind, call, emit, ret.
  destruct (truthy (getField "emulateMedia" opts)); step_outcomes; reflexivity.
Qed.

(** C3 (code defect, shared with C4).  [render] tests [opts.emulateMedia],
    a key that [getOptsFromQuery] never sets; [opts.emulateScreenMedia] is
    not read.  With [emulateScreenMedia: true] the media emulation is not
    switched, and with [emulateScreenMedia: false] it is switched when
    [emulateMedia] is set. *)
Theorem render_ignores_emulateScreenMedia :
  existsb isEmulateMedia
    (trace (PdfCore.render (Mock.healthy Mock.pdfBytes)
              (VObj [("url", VStr "https://example.com/");
                     ("emulateScreenMedia", VBool true)])))
  = false
  /\ existsb isEmulateMedia
       (trace (PdfCore.render (Mock.healthy Mock.pdfBytes)
                 (VObj [("url", VStr "https://example.com/");
                        ("emulateScreenMedia", VBool false);
                        ("emulateMedia", VBool true)])))
     = true.
Proof. split; reflexivity. Qed.

(** The GET route cannot switch the media emulation at all: its options
    never hold [emulateMedia], whatever the query string says. *)
Lemma getOptsFromQuery_never_emulates (q : obj) :
  getField "emulateMedia" (PdfCore.mergeOpts (VObj (Routes.getOptsFromQuery q)))
  = VBool false.
Proof.
  unfold PdfCore.mergeOpts, merge. rewrite getField_baseMerge.
  - reflexivity.
  - unfold Routes.getOptsFromQuery. simpl.
    repeat (constructor; [simpl; intuition discriminate|]). constructor.
Qed.

(* ================================================================== *)
(** ** The scroll script *)

Section ScrollProofs.
Import ScrollScript.
Context {page : Type} (W : Window page).
Variable scrollStep : Z.

Lemma executor_armed (w : page) :
  executor W w = scrollDown W (innerHeight W w - 400) (armed 0 w).
Proof. reflexivity. Qed.

Lemma scrollDown_armed t w :
  scrollDown W scrollStep (armed t w)
  = if nearBottom W (scrollBy W scrollStep w)
    then {| now := t; win := scrollTo W 0 (scrollBy W scrollStep w);
            timers := enqueue {| due := t + 500; cb := CbResolve |}
                        [{| due := 30000; cb := CbReject |}];
            settled := None |}
    else {| now := t; win := scrollBy W scrollStep w;
            timers := enqueue {| due := t + 200; cb := CbScrollDown |}
                        [{| due := 30000; cb := CbReject |}];
            settled := None |}.
Proof. reflexivity. Qed.

(** A scroll step that does not stop, with time left before the timeout:
    the next timer is the next scroll step. *)
Lemma scrollDown_continues t w :
  nearBottom W (scrollBy W scrollStep w) = false ->
  t + 200 < 30000 ->
  tick W scrollStep (scrollDown W scrollStep (armed t w))
  = scrollDown W scrollStep
      (armed (t + 200) (elapse W scrollInterval (scrollBy W scrollStep w))).
Proof.
  intros Hstop Ht. rewrite (scrollDown_armed t w), Hstop.
  apply Z.ltb_lt in Ht. unfold tick, scrollInterval. cbn. rewrite Ht. cbn.
  replace (t + 200 - t) with 200 by lia. reflexivity.
Qed.

(** A scroll step that stops early enough: the promise resolves 500 ms
    later, on the page scrolled back to the top. *)
Lemma scrollDown_resolves t w fuel :
  nearBottom W (scrollBy W scrollStep w) = true ->
  t + 500 < 30000 ->
  await W (S fuel) scrollStep (scrollDown W scrollStep (armed t w))
  = Some {| now := t + 500;
            win := elapse W 500 (scrollTo W 0 (scrollBy W scrollStep w));
            timers := [{| due := 30000; cb := CbReject |}];
            settled := Some (Resolved, t + 500) |}.
Proof.
  intros Hstop Ht. rewrite (scrollDown_armed t w), Hstop.
  apply Z.ltb_lt in Ht. cbn. rewrite Ht. cbn.
  replace (t + 500 - t) with 500 by lia. now destruct fuel.
Qed.

(** A scroll step with no time left: the timeout fires next, whether the
    step stopped or not. *)
Lemma scrollDown_times_out t w fuel :
  (if nearBottom W (scrollBy W scrollStep w) then 30000 <= t + 500
   else 30000 <= t + 200) ->
  exists st,
    await W (S fuel) scrollStep (scrollDown W scrollStep (armed t w)) = Some st
    /\ settled st = Some (TimedOut, 30000).
Proof.
  intros Ht. rewrite (scrollDown_armed t w).
  destruct (nearBottom W (scrollBy W scrollStep w));
    cbn [enqueue due]; apply Z.ltb_ge in Ht; rewrite Ht;
    cbn [await settled tick timers cb due now win settle];
    destruct fuel; eexists; split; reflexivity.
Qed.

(** Without a stop among the first [k] scroll steps, and [k] at most 149,
    the loop reaches the [k]-th call of [scrollDown] at time [200 k] after
    [k] timers. *)
Lemma await_reaches_step (w : page) (k : nat) :
  (k <= 149)%nat ->
  (forall j, (j < k)%nat ->
     nearBottom W (scrollBy W scrollStep (beforeScroll W scrollStep j w)) = false) ->
  forall fuel,
    await W (k + fuel) scrollStep (scrollDown W scrollStep (armed 0 w))
    = await W fuel scrollStep
        (scrollDown W scrollStep
           (armed (200 * Z.of_nat k) (beforeScroll W scrollStep k w))).
Proof.
  induction k as [|k IH]; intros Hk Hno fuel.
  - reflexivity.
  - replace (S k + fuel)%nat with (k + S fuel)%nat by lia.
    rewrite IH by (try lia; intros j Hj; apply Hno; lia).
    assert (Hstop := Hno k (Nat.lt_succ_diag_r k)).
    assert (Hpending :
      settled (scrollDown W scrollStep
                 (armed (200 * Z.of_nat k) (beforeScroll W scrollStep k w))) = None).
    { rewrite scrollDown_armed, Hstop. reflexivity. }
    cbn [await]. rewrite Hpending.
    rewrite scrollDown_continues by (auto; lia).
    replace (200 * Z.of_nat k + 200) with (200 * Z.of_nat (S k)) by lia.
    reflexivity.
Qed.

End ScrollProofs.

(** Among the first [n] steps either none satisfies [f] or there is a first
    one that does. *)
Lemma first_or_none (f : nat -> bool) (n : nat) :
  (forall j, (j < n)%nat -> f j = false)
  \/ (exists k, (k < n)%nat /\ f k = true /\ forall j, (j < k)%nat -> f j = false).
Proof.
  induction n as [|n [IH|[k [Hk [Hf Hfirst]]]]].
  - left. intros j Hj. lia.
  - destruct (f n) eqn:E.
    + right. exists n. repeat split; auto.
    + left. intros j Hj. destruct (Nat.eq_dec j n) as [->|]; auto. apply IH. lia.
  - right. exists k. repeat split; auto.
Qed.

Lemma below_forallb (f : nat -> bool) (n : nat) :
  forallb f (seq 0 n) = true -> forall j, (j < n)%nat -> f j = true.
Proof.
  intros H j Hj. rewrite forallb_forall in H. apply H, in_seq. lia.
Qed.

(** A stop at a step [k <= 147] resolves the promise. *)
Lemma script_resolves {page : Type} (W : ScrollScript.Window page)
    (w : page) (fuel k : nat) :
  (151 <= fuel)%nat -> (k <= 147)%nat ->
  (forall j, (j < k)%nat -> ScrollScript.stopsAt W j w = false) ->
  ScrollScript.stopsAt W k w = true ->
  exists st,
    ScrollScript.script W fuel w = Some st
    /\ ScrollScript.settled st
       = Some (ScrollScript.Resolved, 200 * Z.of_nat k + 500)
    /\ ScrollScript.win st
       = ScrollScript.elapse W 500
           (ScrollScript.scrollTo W 0 (ScrollScript.scrolled W k w)).
Proof.
  unfold ScrollScript.script, ScrollScript.stopsAt, ScrollScript.scrolled.
  rewrite executor_armed. cbv zeta.
  set (scrollStep := ScrollScript.innerHeight W w - 400).
  intros Hfuel Hk Hno Hstop.
  replace fuel with (k + S (fuel - k - 1))%nat by lia.
  rewrite await_reaches_step by (auto; lia).
  rewrite scrollDown_resolves by (auto; lia).
  eexists. repeat split.
Qed.

(** No stop at the steps 0..147 lets the timeout reject the promise. *)
Lemma script_times_out {page : Type} (W : ScrollScript.Window page)
    (w : page) (fuel : nat) :
  (151 <= fuel)%nat ->
  (forall j, (j <= 147)%nat -> ScrollScript.stopsAt W j w = false) ->
  exists st,
    ScrollScript.script W fuel w = Some st
    /\ ScrollScript.settled st = Some (ScrollScript.TimedOut, 30000).
Proof.
  unfold ScrollScript.script, ScrollScript.stopsAt, ScrollScript.scrolled.
  rewrite executor_armed. cbv zeta.
  set (scrollStep := ScrollScript.innerHeight W w - 400).
  intros Hfuel Hno.
  destruct (ScrollScript.nearBottom W
              (ScrollScript.scrollBy W scrollStep
                 (ScrollScript.beforeScroll W scrollStep 148 w))) eqn:E148.
  - replace fuel with (148 + S (fuel - 149))%nat by lia.
    rewrite await_reaches_step by (try lia; intros j Hj; apply Hno; lia).
    apply scrollDown_times_out. rewrite E148. lia.
  - replace fuel with (149 + S (fuel - 150))%nat by lia.
    rewrite await_reaches_step.
    + apply scrollDown_times_out.
      match goal with |- if ?c then _ else _ => destruct c end; lia.
    + lia.
    + intros j Hj. destruct (Nat.eq_dec j 148) as [->|]; auto. apply Hno. lia.
Qed.

(** C5, as the code has it.  The promise of the scroll script resolves when
    the stop test first holds at a scroll step [k <= 147], that is when
    [200 k + 500 < 30000]: 500 ms after that step, on the page scrolled back
    to the top.  When the stop test fails at all of the steps 0..147 the
    promise is rejected at 30000 ms, also if a later step would have
    stopped.  151 timers are enough for either. *)
Theorem scroll_script_settles {page : Type} (W : ScrollScript.Window page)
    (w : page) (fuel : nat) :
  (151 <= fuel)%nat ->
  (forall k, (k <= 147)%nat ->
     (forall j, (j < k)%nat -> ScrollScript.stopsAt W j w = false) ->
     ScrollScript.stopsAt W k w = true ->
     exists st,
       ScrollScript.script W fuel w = Some st
       /\ ScrollScript.settled st
          = Some (ScrollScript.Resolved, 200 * Z.of_nat k + 500)
       /\ ScrollScript.win st
          = ScrollScript.elapse W 500
              (ScrollScript.scrollTo W 0 (ScrollScript.scrolled W k w)))
  /\ ((forall j, (j <= 147)%nat -> ScrollScript.stopsAt W j w = false) ->
      exists st,
        ScrollScript.script W fuel w = Some st
        /\ ScrollScript.settled st = Some (ScrollScript.TimedOut, 30000)).
Proof.
  intros Hfuel. split.
  - intros k Hk Hno Hstop. now apply script_resolves.
  - intros Hno. now apply script_times_out.
Qed.

Lemma scroll_script_settles_witness :
  (exists st,
     ScrollScript.script (ScrollScript.staticDocument 1200 3000) 151 0 = Some st
     /\ ScrollScript.settled st = Some (ScrollScript.Resolved, 700)
     /\ ScrollScript.win st = 0)
  /\ (exists st,
        ScrollScript.script (ScrollScript.staticDocument 1200 200000) 151 0 = Some st
        /\ ScrollScript.settled st = Some (ScrollScript.TimedOut, 30000)).
Proof.
  split.
  - apply (proj1 (scroll_script_settles
                    (ScrollScript.staticDocument 1200 3000) 0 151 (le_n 151)) 1%nat).
    + repeat constructor.
    + intros j Hj. inversion Hj as [|? H0]; [reflexivity | inversion H0].
    + reflexivity.
  - apply (proj2 (scroll_script_settles
                    (ScrollScript.staticDocument 1200 200000) 0 151 (le_n 151))).
    intros j Hj. apply negb_true_iff.
    apply (below_forallb
             (fun i => negb (ScrollScript.stopsAt
                               (ScrollScript.staticDocument 1200 200000) i 0)) 148).
    + vm_compute. reflexivity.
    + apply le_n_S. exact Hj.
Defined.

(** C5, as stated, fails: in a viewport 1200 px high a document of
    200000 px reaches the stop test at scroll step 248, at 49600 ms, but the
    promise was rejected at 30000 ms. *)
Lemma long_document_times_out :
  let W := ScrollScript.staticDocument 1200 200000 in
  ScrollScript.stopsAt W 248 0 = true
  /\ forallb (fun i => negb (ScrollScript.stopsAt W i 0)) (seq 0 248) = true
  /\ option_map ScrollScript.settled (ScrollScript.script W 151 0)
     = Some (Some (ScrollScript.TimedOut, 30000))
  /\ option_map ScrollScript.settled (ScrollScript.script W 1000 0)
     = Some (Some (ScrollScript.TimedOut, 30000)).
Proof. vm_compute. repeat split. Qed.

(** A page that the scroll script gives up on fails the whole [render]
    call, and the browser stays open; a short page is exported. *)
Example render_of_long_document_fails :
  let opts := VObj [("url", VStr "https://example.com/"); ("scrollPage", VBool true)] in
  let long := PdfCore.render
                (Mock.showing (ScrollScript.staticDocument 1200 200000) 0 Mock.pdfBytes)
                opts in
  let short := PdfCore.render
                 (Mock.showing (ScrollScript.staticDocument 1200 3000) 0 Mock.pdfBytes)
                 opts in
  outcome_of long = Throw (Rejected "Evaluation failed")
  /\ closeCount (trace long) = 0%nat
  /\ outcome_of short = Return Mock.pdfBytes
  /\ closeCount (trace short) = 1%nat.
Proof. vm_compute. repeat split. Qed.

(** X8.  The scroll script always settles: whatever the page does, its
    promise is resolved or rejected after at most 151 timers, at 30000 ms
    at the latest. *)
Lemma scroll_script_total {page : Type} (W : ScrollScript.Window page)
    (w : page) (fuel : nat) :
  (151 <= fuel)%nat ->
  exists st s t,
    ScrollScript.script W fuel w = Some st
    /\ ScrollScript.settled st = Some (s, t) /\ t <= 30000.
Proof.
  intros Hfuel.
  destruct (first_or_none (fun j => ScrollScript.stopsAt W j w) 148)
    as [Hnone|[k [Hk [Hstop Hfirst]]]].
  - destruct (script_times_out W w fuel Hfuel) as [st [Hst Hset]].
    + intros j Hj. apply Hnone. lia.
    + exists st, ScrollScript.TimedOut, 30000. repeat split; auto. lia.
  - destruct (script_resolves W w fuel k) as [st [Hst [Hset _]]]; auto; try lia.
    exists st, ScrollScript.Resolved, (200 * Z.of_nat k + 500).
    repeat split; auto. lia.
Qed.

(* ================================================================== *)
(** ** The existing-PDF resolver *)

Lemma probe_spec (fetchHead : string -> outcome Response) (url : string) :
  probe fetchHead url
  = ([EvFetchHead url],
     match fetchHead url with
     | Fail reason => Throw (Rejected reason)
     | Ok r =>
         match contentType r with
         | None => Throw TypeError
         | Some ct =>
             if Str.endsWith (Str.toLowerCase ct) "pdf"
             then Return (VStr url) else Return VNull
         end
     end).
Proof.
  unfold probe, bind, call.
  destruct (fetchHead url) as [[[ct|]]|reason]; simpl; auto.
  destruct (Str.endsWith (Str.toLowerCase ct) "pdf"); reflexivity.
Qed.

(** The resolver of pdf-http.js gets to the probe when the URL does not end
    in [.pdf], parses, and is no known site. *)
Lemma resolver_reaches_probe parseURL fetchHead raw_url url :
  Str.endsWith raw_url ".pdf" = false ->
  parseURL raw_url = Some url ->
  PdfHttp.knownSite url = None ->
  PdfHttp.getExistingPdfUrl parseURL fetchHead (VStr raw_url) = probe fetchHead raw_url.
Proof.
  intros Hext Hparse Hsite. unfold PdfHttp.getExistingPdfUrl, Str.isPDFPattern.
  now rewrite Hext, Hparse, Hsite.
Qed.




Lemma spanDigits_app (d rest : string) :
  Str.allChars Str.isDigit d = true ->
  startsWithDigit rest = false ->
  Str.spanDigits (d ++ rest) = (d, rest).
Proof.
  unfold Str.allChars. induction d as [|c d IH]; simpl; intros Hd Hrest.
  - destruct rest as [|c rest]; simpl in *; [reflexivity | now rewrite Hrest].
  - apply andb_true_iff in Hd. destruct Hd as [Hc Hd].
    now rewrite Hc, IH.
Qed.

Lemma matchId_digits (d1 d2 rest : string) :
  Str.allChars Str.isDigit d1 = true -> d1 <> "" ->
  Str.allChars Str.isDigit d2 = true -> d2 <> "" ->
  startsWithDigit rest = false ->
  Str.matchId (d1 ++ "." ++ d2 ++ rest) = Some (d1 ++ "." ++ d2).
Proof.
  intros H1 N1 H2 N2 Hrest. unfold Str.matchId.
  rewrite (spanDigits_app d1 ("." ++ d2 ++ rest) H1 eq_refl).
  destruct d1 as [|c1 d1]; [contradiction|].
  cbn [append]. rewrite (spanDigits_app d2 rest H2 Hrest).
  destruct d2 as [|c2 d2]; [contradiction|]. reflexivity.
Qed.

Lemma stripPrefix_app (p s : string) : Str.stripPrefix p (p ++ s) = Some s.
Proof.
  induction p as [|c p IH]; simpl; auto. now rewrite Ascii.eqb_refl.
Qed.

Lemma matchAbsOrPdfId_digits (kind d1 d2 rest : string) :
  kind = "abs" \/ kind = "pdf" ->
  Str.allChars Str.isDigit d1 = true -> d1 <> "" ->
  Str.allChars Str.isDigit d2 = true -> d2 <> "" ->
  startsWithDigit rest = false ->
  Str.matchAbsOrPdfId (kind ++ "/" ++ d1 ++ "." ++ d2 ++ rest)
  = Some (kind, d1 ++ "." ++ d2).
Proof.
  intros [->| ->] H1 N1 H2 N2 Hrest; unfold Str.matchAbsOrPdfId; cbn;
    change (d1 ++ String "." (d2 ++ rest)) with (d1 ++ "." ++ d2 ++ rest);
    now rewrite matchId_digits.
Qed.

(** C7, as the code has it.  For a URL string that does not end in [.pdf],
    with host [arxiv.org] and a path [/abs/<id>] or [/pdf/<id>], [<id>]
    being digits, a dot, digits (and whatever follows not starting with a
    digit), the resolver of pdf-http.js returns [https://arxiv.org/pdf/<id>]
    without any request.  So does the earlier resolver when the URL is
    written [http://arxiv.org...] or [https://arxiv.org...]. *)
Theorem arxiv_url_is_rewritten (parseURL : string -> option Url.URL)
    (fetchHead : string -> outcome Response)
    (raw_url : string) (url : Url.URL) (kind d1 d2 rest : string) :
  Str.endsWith raw_url ".pdf" = false ->
  parseURL raw_url = Some url ->
  Url.hostname url = "arxiv.org" ->
  kind = "abs" \/ kind = "pdf" ->
  Str.allChars Str.isDigit d1 = true -> d1 <> "" ->
  Str.allChars Str.isDigit d2 = true -> d2 <> "" ->
  startsWithDigit rest = false ->
  Url.pathname url = "/" ++ kind ++ "/" ++ d1 ++ "." ++ d2 ++ rest ->
  PdfHttp.getExistingPdfUrl parseURL fetchHead (VStr raw_url)
  = ([], Return (VStr ("https://arxiv.org/pdf/" ++ d1 ++ "." ++ d2)))
  /\ forall scheme,
       scheme = "http" \/ scheme = "https" ->
       raw_url = scheme ++ "://arxiv.org" ++ Url.pathname url ->
       PdfHttpEarlier.getExistingPdfUrl fetchHead (VStr raw_url)
       = ([], Return (VStr ("https://arxiv.org/pdf/" ++ d1 ++ "." ++ d2))).
Proof.
  intros Hext Hparse Hhost Hkind H1 N1 H2 N2 Hrest Hpath.
  assert (Hid := matchAbsOrPdfId_digits kind d1 d2 rest Hkind H1 N1 H2 N2 Hrest).
  split.
  - unfold PdfHttp.getExistingPdfUrl, Str.isPDFPattern, PdfHttp.knownSite.
    rewrite Hext, Hparse, Hhost, Hpath, String.eqb_refl.
    unfold Str.arxivIdPattern. now rewrite stripPrefix_app, Hid.
  - intros scheme Hscheme Hraw.
    unfold PdfHttpEarlier.getExistingPdfUrl, Str.isPDFPattern. rewrite Hext.
    assert (Hm : Str.arxivUrlPattern raw_url = Some (kind, d1 ++ "." ++ d2)).
    { rewrite Hraw, Hpath. unfold Str.arxivUrlPattern.
      destruct Hscheme as [->| ->]; cbn; exact Hid. }
    now rewrite Hm.
Qed.

Lemma arxiv_url_is_rewritten_witness :
  PdfHttp.getExistingPdfUrl Url.parsePlain Mock.offline
    (VStr "https://arxiv.org/abs/2101.00001")
  = ([], Return (VStr "https://arxiv.org/pdf/2101.00001"))
  /\ PdfHttpEarlier.getExistingPdfUrl Mock.offline
       (VStr "https://arxiv.org/abs/2101.00001")
     = ([], Return (VStr "https://arxiv.org/pdf/2101.00001")).
Proof.
  destruct (arxiv_url_is_rewritten Url.parsePlain Mock.offline
              "https://arxiv.org/abs/2101.00001"
              {| Url.authority := "https://arxiv.org"; Url.hostname := "arxiv.org";
                 Url.pathname := "/abs/2101.00001"; Url.search := ""; Url.hash := "" |}
              "abs" "2101" "00001" "") as [Hnew Hold];
    try reflexivity; try discriminate.
  - left. reflexivity.
  - split; [exact Hnew|]. apply (Hold "https"); [right|]; reflexivity.
Defined.

(** C7, as stated, fails: host [arxiv.org], path [/abs/2101.00001], but the
    URL string ends in [.pdf], so the first step returns it unchanged. *)
Lemma arxiv_url_ending_in_pdf_is_kept :
  let raw_url := "https://arxiv.org/abs/2101.00001?format=.pdf" in
  option_map Url.hostname (Url.parsePlain raw_url) = Some "arxiv.org"
  /\ option_map Url.pathname (Url.parsePlain raw_url) = Some "/abs/2101.00001"
  /\ PdfHttp.getExistingPdfUrl Url.parsePlain Mock.offline (VStr raw_url)
     = ([], Return (VStr raw_url))
  /\ PdfHttp.getExistingPdfUrl Url.parsePlain Mock.offline (VStr raw_url)
     <> ([], Return (VStr "https://arxiv.org/pdf/2101.00001")).
Proof. repeat split. discriminate. Qed.

(** The same for a PDF address of arXiv written with the extension. *)
Example arxiv_pdf_with_extension_is_kept :
  PdfHttp.getExistingPdfUrl Url.parsePlain Mock.offline
    (VStr "https://arxiv.org/pdf/2101.00001.pdf")
  = ([], Return (VStr "https://arxiv.org/pdf/2101.00001.pdf")).
Proof. reflexivity. Qed.

Example openreview_forum_is_rewritten :
  PdfHttp.getExistingPdfUrl Url.parsePlain Mock.offline
    (VStr "https://openreview.net/forum?id=abc")
  = ([], Return (VStr "https://openreview.net/pdf?id=abc")).
Proof. reflexivity. Qed.

(** C8 (code defect).  A response without a content-type header makes
    [headers.get] return [null], and [null.toLowerCase()] throws: the
    resolver fails with a TypeError where the specification has it answer
    [null]. *)
Theorem probe_without_content_type_throws :
  PdfHttp.getExistingPdfUrl Url.parsePlain (Mock.answering None)
    (VStr "https://example.com/page")
  = ([EvFetchHead "https://example.com/page"], Throw TypeError)
  /\ PdfHttpEarlier.getExistingPdfUrl (Mock.answering None)
       (VStr "https://example.com/page")
     = ([EvFetchHead "https://example.com/page"], Throw TypeError).
Proof. split; reflexivity. Qed.

(** With a content-type header the probe does what C8 says. *)
Example probe_examples :
  let page := "https://example.com/page" in
  PdfHttp.getExistingPdfUrl Url.parsePlain (Mock.answering (Some "Application/PDF"))
    (VStr page) = ([EvFetchHead page], Return (VStr page))
  /\ PdfHttp.getExistingPdfUrl Url.parsePlain (Mock.answering (Some "text/html"))
       (VStr page) = ([EvFetchHead page], Return VNull)
  /\ PdfHttp.getExistingPdfUrl Url.parsePlain Mock.offline (VStr page)
     = ([EvFetchHead page], Throw (Rejected "ENOTFOUND")).
Proof. repeat split. Qed.

(* ================================================================== *)
(** ** The POST route *)

Lemma noHttpError_bind {A B} (m : M A) (f : A -> M B) :
  noHttpError m -> (forall a, noHttpError (f a)) -> noHttpError (bind m f).
Proof.
  unfold noHttpError. intros Hm Hf status message.
  rewrite outcome_bind. destruct (outcome_of m) eqn:E.
  - apply Hf.
  - intros H. apply (Hm status message). congruence.
Qed.

Lemma noHttpError_ret {A} (a : A) : noHttpError (ret a).
Proof. intros status message. discriminate. Qed.

Lemma noHttpError_emit ev : noHttpError (emit ev).
Proof. intros status message. discriminate. Qed.

Lemma noHttpError_call {A} ev (o : outcome A) : noHttpError (call ev o).
Proof. intros status message. destruct o; discriminate. Qed.

Lemma noHttpError_member v k : noHttpError (member v k).
Proof. intros status message. destruct v; discriminate. Qed.

Lemma noHttpError_probe fetchHead url : noHttpError (probe fetchHead url).
Proof.
  intros status message. rewrite probe_spec. simpl.
  destruct (fetchHead url) as [[[ct|]]|]; try discriminate.
  simpl. destruct (Str.endsWith (Str.toLowerCase ct) "pdf"); discriminate.
Qed.

Create HintDb http.

#[local] Hint Resolve noHttpError_ret noHttpError_emit noHttpError_call
  noHttpError_member noHttpError_probe : http.

Ltac no_http :=
  repeat first
    [ apply noHttpError_bind; [|intros ?]
    | match goal with |- noHttpError (if ?c then _ else _) => destruct c end
    | solve [auto with http] ].

Lemma noHttpError_resolver parseURL fetchHead v :
  noHttpError (PdfHttp.getExistingPdfUrl parseURL fetchHead v).
Proof.
  unfold PdfHttp.getExistingPdfUrl.
  destruct v; try (intros ? ?; discriminate).
  destruct (Str.isPDFPattern s); [auto with http|].
  destruct (parseURL s) as [url|]; [|intros ? ?; discriminate].
  destruct (PdfHttp.knownSite url); auto with http.
Qed.

Lemma noHttpError_resolver_earlier fetchHead v :
  noHttpError (PdfHttpEarlier.getExistingPdfUrl fetchHead v).
Proof.
  unfold PdfHttpEarlier.getExistingPdfUrl.
  destruct v; try (intros ? ?; discriminate).
  destruct (Str.isPDFPattern s); [auto with http|].
  destruct (Str.arxivUrlPattern s) as [[? ?]|]; auto with http.
Qed.

Lemma noHttpError_render browser _opts : noHttpError (PdfCore.render browser _opts).
Proof.
  unfold PdfCore.render, PdfCore.scrollPage. cbv zeta. no_http.
Qed.

Lemma noHttpError_redirectOrRender resolver browser opts :
  (forall v, noHttpError (resolver v)) ->
  noHttpError (Routes.redirectOrRender resolver browser opts).
Proof.
  intros Hres. unfold Routes.redirectOrRender, Routes.sendPdf.
  apply noHttpError_bind; [auto with http|intros url].
  apply noHttpError_bind; [apply Hres|intros existing].
  destruct (notNullish existing); [auto with http|].
  apply noHttpError_bind; [apply noHttpError_render|intros data].
  no_http.
Qed.

(** The validation step of the POST route for a JSON body, over any
    resolver that raises no HTTP-status error of its own. *)
Lemma postRender_json_validates resolver browser req :
  (forall v, noHttpError (resolver v)) ->
  getField "content-type" (headers req) = VStr "application/json" ->
  (outcome_of (Routes.postRender resolver browser req)
   = Throw (HttpError 400 "Body must contain url or html")
   <-> isString (get (body req) "url") = false
       /\ isString (get (body req) "html") = false)
  /\ (isString (get (body req) "url") = true
      \/ isString (get (body req) "html") = true ->
      noHttpError (Routes.postRender resolver browser req)).
Proof.
  intros Hres Hct. unfold Routes.postRender. rewrite Hct.
  change (isTheString (VStr "application/json") "application/json") with true.
  cbv iota.
  assert (Hrest := noHttpError_redirectOrRender resolver browser (body req) Hres).
  destruct (isString (get (body req) "url")),
           (isString (get (body req) "html")); cbn [orb negb].
  4: { split; [split; auto|]. intros [H|H]; discriminate. }
  all: split;
    [ split;
      [ intros H; exfalso; revert H; rewrite outcome_bind; apply Hrest
      | intros [H1 H2]; discriminate ]
    | intros _; apply noHttpError_bind; [auto with http | intros _; exact Hrest] ].
Qed.

(** C9.  With the content type [application/json], the POST route answers
    400 "Body must contain url or html" exactly when the body has neither a
    string [url] nor a string [html]; with either of them no HTTP-status
    error is raised in the whole handler. *)
Theorem postRender_json_body_must_have_content
    (parseURL : string -> option Url.URL) (fetchHead : string -> outcome Response)
    (browser : PdfCore.Puppeteer) (req : Request) :
  getField "content-type" (headers req) = VStr "application/json" ->
  (outcome_of (postRender parseURL fetchHead browser req)
   = Throw (HttpError 400 "Body must contain url or html")
   <-> isString (get (body req) "url") = false
       /\ isString (get (body req) "html") = false)
  /\ (isString (get (body req) "url") = true
      \/ isString (get (body req) "html") = true ->
      noHttpError (postRender parseURL fetchHead browser req)).
Proof.
  intros Hct. apply postRender_json_validates; auto.
  intros v. apply noHttpError_resolver.
Qed.

Lemma postRender_json_body_must_have_content_witness :
  outcome_of
    (postRender Url.parsePlain Mock.offline (Mock.healthy Mock.pdfBytes)
       {| headers := [("content-type", VStr "application/json")];
          body := VObj []; query := [] |})
  = Throw (HttpError 400 "Body must contain url or html").
Proof.
  apply (postRender_json_body_must_have_content Url.parsePlain Mock.offline
           (Mock.healthy Mock.pdfBytes)
           {| headers := [("content-type", VStr "application/json")];
              body := VObj []; query := [] |}).
  - reflexivity.
  - split; reflexivity.
Defined.

(** The earlier source unit has the same route over its own resolver. *)
Lemma postRenderEarlier_json_body_must_have_content fetchHead browser req :
  getField "content-type" (headers req) = VStr "application/json" ->
  (outcome_of (postRenderEarlier fetchHead browser req)
   = Throw (HttpError 400 "Body must contain url or html")
   <-> isString (get (body req) "url") = false
       /\ isString (get (body req) "html") = false).
Proof.
  intros Hct. apply postRender_json_validates; auto.
  intros v. apply noHttpError_resolver_earlier.
Qed.

Lemma bind_ret {A B} (a : A) (f : A -> M B) : bind (ret a) f = f a.
Proof. unfold bind, ret. now destruct (f a). Qed.

Lemma bind_throw {A B} (e : error) (f : A -> M B) : bind (throw e) f = throw e.
Proof. reflexivity. Qed.

Lemma getOptsFromQuery_url body q :
  getField "url" (setField "html" body (Routes.getOptsFromQuery q)) = getField "url" q.
Proof. unfold getField. now rewrite lookup_setField_other by discriminate. Qed.

Lemma postRender_html_only_throws resolver browser req :
  resolver VUndef = throw TypeError ->
  (isTheString (getField "content-type" (headers req)) "application/json" = true
   /\ isString (get (body req) "html") = true
   /\ get (body req) "url" = VUndef)
  \/ (isTheString (getField "content-type" (headers req)) "application/json" = false
      /\ getField "url" (query req) = VUndef) ->
  Routes.postRender resolver browser req = ([], Throw TypeError).
Proof.
  intros Hres [[Hct [Hhtml Hurl]]|[Hct Hurl]];
    unfold Routes.postRender, Routes.redirectOrRender; rewrite Hct; cbv iota.
  - rewrite Hhtml, orb_true_r. cbn [negb]. rewrite bind_ret.
    destruct (body req) as [| | | | |fs]; try discriminate.
    cbn [get] in Hurl. cbn [member]. rewrite Hurl, bind_ret, Hres.
    apply bind_throw.
  - rewrite Hurl. cbn [isString]. rewrite bind_ret.
    cbn [member]. rewrite getOptsFromQuery_url, Hurl, bind_ret, Hres.
    apply bind_throw.
Qed.

(** C10.  A POST request with [html] and no [url], be it a JSON body with a
    string [html] or a raw-HTML body without a [url] query parameter, makes
    the handler call [getExistingPdfUrl(undefined)], which throws a
    TypeError at [raw_url.match]: the handler ends there, having called
    neither the network nor the browser. *)
Theorem postRender_html_only_never_renders
    (parseURL : string -> option Url.URL) (fetchHead : string -> outcome Response)
    (browser : PdfCore.Puppeteer) (req : Request) :
  (isTheString (getField "content-type" (headers req)) "application/json" = true
   /\ isString (get (body req) "html") = true
   /\ get (body req) "url" = VUndef)
  \/ (isTheString (getField "content-type" (headers req)) "application/json" = false
      /\ getField "url" (query req) = VUndef) ->
  postRender parseURL fetchHead browser req = ([], Throw TypeError)
  /\ postRenderEarlier fetchHead browser req = ([], Throw TypeError).
Proof.
  intros H. split; apply postRender_html_only_throws; auto.
Qed.

Lemma postRender_html_only_never_renders_witness :
  (postRender Url.parsePlain (Mock.answering (Some "text/html"))
     (Mock.healthy Mock.pdfBytes)
     {| headers := [("content-type", VStr "application/json")];
        body := VObj [("html", VStr "<h1>Hello</h1>")]; query := [] |}
   = ([], Throw TypeError))
  /\ (postRender Url.parsePlain (Mock.answering (Some "text/html"))
        (Mock.healthy Mock.pdfBytes)
        {| headers := [("content-type", VStr "text/html")];
           body := VStr "<h1>Hello</h1>"; query := [] |}
      = ([], Throw TypeError)).
Proof.
  split.
  - apply (postRender_html_only_never_renders Url.parsePlain
             (Mock.answering (Some "text/html")) (Mock.healthy Mock.pdfBytes)
             {| headers := [("content-type", VStr "application/json")];
                body := VObj [("html", VStr "<h1>Hello</h1>")]; query := [] |}).
    left. repeat split.
  - apply (postRender_html_only_never_renders Url.parsePlain
             (Mock.answering (Some "text/html")) (Mock.healthy Mock.pdfBytes)
             {| headers := [("content-type", VStr "text/html")];
                body := VStr "<h1>Hello</h1>"; query := [] |}).
    right. repeat split.
Defined.

(** With a URL the same routes do reach the browser. *)
Example postRender_with_url_renders :
  let req := {| headers := [("content-type", VStr "application/json")];
                body := VObj [("url", VStr "https://example.com/page")];
                query := [] |} in
  let r := postRender Url.parsePlain (Mock.answering (Some "text/html"))
             (Mock.healthy Mock.pdfBytes) req in
  outcome_of r = Return tt
  /\ existsb isBrowserCall (trace r) = true
  /\ last (trace r) EvClose = EvSend Mock.pdfBytes.
Proof. repeat split. Qed.

Example getRender_redirects_to_arxiv_pdf :
  getRender Url.parsePlain Mock.offline (Mock.healthy Mock.pdfBytes)
    {| headers := []; body := VUndef;
       query := [("url", VStr "https://arxiv.org/abs/2101.00001")] |}
  = ([EvRedirect (VStr "https://arxiv.org/pdf/2101.00001")], Return tt).
Proof. reflexivity. Qed.

(* ================================================================== *)
(** ** Further properties: the options *)

Lemma wf_getPath p : forall v, wf v -> wf (getPath p v).
Proof.
  induction p as [|k p IH]; intros v Hv; simpl; auto.
  apply IH. destruct v; simpl; try constructor. now apply wf_getField.
Qed.

Lemma getOptsFromQuery_leaf (q : obj) p :
  In p queryPaths ->
  getPath p (VObj (Routes.getOptsFromQuery q)) = getField (queryKey p) q.
Proof.
  intros Hp. unfold queryPaths in Hp. simpl in Hp.
  repeat (destruct Hp as [Hp|Hp]; [subst p; reflexivity|]).
  contradiction.
Qed.

(** X1.  [getOptsFromQuery] un-flattens the query string: every leaf of the
    nested options is the query parameter whose key joins the path with
    dots, and the options have the ten top-level keys of the object literal
    and no other, so that a query parameter [html] or [emulateMedia] is
    dropped. *)
Theorem getOptsFromQuery_unflattens (q : obj) :
  (forall p, In p queryPaths ->
     getPath p (VObj (Routes.getOptsFromQuery q)) = getField (queryKey p) q)
  /\ (forall k,
        ~ In k ["url"; "attachmentName"; "scrollPage"; "emulateScreenMedia";
                "ignoreHttpsErrors"; "waitFor"; "viewport"; "goto"; "pdf"] ->
        getField k (Routes.getOptsFromQuery q) = VUndef).
Proof.
  split.
  - intros p Hp. now apply getOptsFromQuery_leaf.
  - intros k Hk. apply getField_notin. exact Hk.
Qed.

Lemma getOptsFromQuery_unflattens_witness :
  let q := [("viewport.width", VStr "800"); ("html", VStr "<p>x</p>")] in
  getPath ["viewport"; "width"] (VObj (Routes.getOptsFromQuery q)) = VStr "800"
  /\ getField "html" (Routes.getOptsFromQuery q) = VUndef.
Proof.
  split.
  - apply (proj1 (getOptsFromQuery_unflattens
                    [("viewport.width", VStr "800"); ("html", VStr "<p>x</p>")])
             ["viewport"; "width"]).
    do 6 right. left. reflexivity.
  - apply (proj2 (getOptsFromQuery_unflattens
                    [("viewport.width", VStr "800"); ("html", VStr "<p>x</p>")])).
    simpl. intuition discriminate.
Defined.

Lemma wf_getOptsFromQuery (q : obj) :
  wf (VObj q) -> wf (VObj (Routes.getOptsFromQuery q)).
Proof.
  intros Hq.
  assert (Hleaf : forall k, wf (getField k q)) by (intros k; now apply wf_getField).
  assert (Hnodup : forall ks : list string,
            (fix distinct (l : list string) : bool :=
               match l with
               | [] => true
               | a :: l' =>
                   (negb (existsb (String.eqb a) l') && distinct l')%bool
               end) ks = true -> NoDup ks).
  { induction ks as [|a ks IH]; intros H; constructor.
    - apply andb_true_iff in H. destruct H as [H _].
      intros Hin. apply negb_true_iff in H.
      assert (existsb (String.eqb a) ks = true).
      { apply existsb_exists. exists a. split; auto. apply String.eqb_refl. }
      congruence.
    - apply IH. apply andb_true_iff in H. tauto. }
  unfold Routes.getOptsFromQuery.
  repeat first
    [ apply Hleaf
    | match goal with
      | |- wf (VObj _) => constructor; [apply Hnodup; reflexivity|]
      | |- forall k v, In _ _ -> wf v =>
          let H := fresh "H" in
          intros ? ? H; simpl in H;
          repeat (destruct H as [H|H]; [inversion H; subst; clear H|]);
          [..|contradiction]
      end ].
Qed.

Lemma plainAlong_getOptsFromQuery (q : obj) p :
  In p queryPaths -> plainAlong p (VObj (Routes.getOptsFromQuery q)).
Proof.
  intros Hp. unfold queryPaths in Hp. simpl in Hp.
  repeat (destruct Hp as [Hp|Hp]; [subst p; exact I|]).
  contradiction.
Qed.

(** X2.  The options of a GET request, leaf by leaf: a query parameter that
    is present is what [render] works with, as it was sent and with no
    conversion, and a missing one leaves the default of [render] (or
    nothing, where [render] has no default). *)
Theorem getRender_options_leaf (q : obj) (p : list string) :
  wf (VObj q) -> In p queryPaths ->
  getPath p (VObj (PdfCore.mergeOpts (VObj (Routes.getOptsFromQuery q))))
  = match getField (queryKey p) q with
    | VUndef => getPath p (VObj PdfCore.defaultOpts)
    | v => v
    end.
Proof.
  intros Hq Hp.
  rewrite mergeOpts_leaf
    by auto using wf_getOptsFromQuery, plainAlong_getOptsFromQuery.
  rewrite (getOptsFromQuery_leaf q p Hp).
  assert (Hw : wf (getField (queryKey p) q)) by now apply wf_getField.
  assert (Hd : isObject (getPath p (VObj PdfCore.defaultOpts)) = false).
  { unfold queryPaths in Hp. simpl in Hp.
    repeat (destruct Hp as [Hp|Hp]; [subst p; reflexivity|]).
    contradiction. }
  unfold merged.
  destruct (getField (queryKey p) q) eqn:E; try reflexivity.
  rewrite <- E in *. rewrite (mergeValue_copy _ Hw _ Hd). reflexivity.
Qed.

Lemma getRender_options_leaf_witness :
  let q := [("viewport.width", VStr "800"); ("pdf.printBackground", VStr "false")] in
  let opts := VObj (PdfCore.mergeOpts (VObj (Routes.getOptsFromQuery q))) in
  getPath ["viewport"; "width"] opts = VStr "800"
  /\ getPath ["viewport"; "height"] opts = VNum 1200.
Proof.
  assert (Hq : wf (VObj [("viewport.width", VStr "800");
                         ("pdf.printBackground", VStr "false")])).
  { constructor.
    - repeat constructor; simpl; intuition discriminate.
    - intros k v [H|[H|[]]]; inversion H; constructor. }
  split.
  - apply (getRender_options_leaf _ ["viewport"; "width"] Hq).
    do 6 right. left. reflexivity.
  - apply (getRender_options_leaf _ ["viewport"; "height"] Hq).
    do 7 right. left. reflexivity.
Defined.

(** X3.  [render] fills in its defaults.  For well-formed options whose
    groups are objects or missing, a leaf the caller leaves [undefined] has
    the default of the object literal afterwards: [scrollPage] false, the
    viewport 1600 by 1200, [goto.waitUntil] networkidle,
    [goto.networkIdleTimeout] 2000, [pdf.format] A4 and
    [pdf.printBackground] true. *)
Theorem mergeOpts_fills_defaults (raw : obj) (p : list string) (d : value) :
  wf (VObj raw) -> plainAlong p (VObj raw) ->
  In (p, d) documentedDefaults -> p <> ["emulateScreenMedia"] ->
  getPath p (VObj raw) = VUndef ->
  getPath p (VObj (PdfCore.mergeOpts (VObj raw))) = d.
Proof.
  intros Hwf Hplain Hin Hp Habs.
  rewrite mergeOpts_absent_leaf by assumption.
  now destruct (documentedDefaults_in_code p d Hin Hp).
Qed.

Lemma mergeOpts_fills_defaults_witness :
  getPath ["viewport"; "height"]
    (VObj (PdfCore.mergeOpts (VObj [("viewport", VObj [("width", VNum 800)])])))
  = VNum 1200.
Proof.
  apply (mergeOpts_fills_defaults
           [("viewport", VObj [("width", VNum 800)])] ["viewport"; "height"]).
  - constructor.
    + repeat constructor; simpl; intuition.
    + intros k v [H|[]]; inversion H. constructor.
      * repeat constructor; simpl; intuition.
      * intros k' v' [H'|[]]; inversion H'; constructor.
  - exact I.
  - do 3 right. left. reflexivity.
  - discriminate.
  - reflexivity.
Defined.

(** X4.  [render] keeps what the caller supplies.  For well-formed options
    in which no object has a key [__proto__] and whose groups are objects
    or missing, a leaf that is not [undefined] and for which [render] has no
    group of defaults is unchanged by the merge: [false], [0], [null] and
    the empty string included. *)
Theorem mergeOpts_keeps_supplied (raw : obj) (p : list string) :
  wf (VObj raw) -> protoFree (VObj raw) = true ->
  plainAlong p (VObj raw) ->
  getPath p (VObj raw) <> VUndef ->
  isObject (getPath p (VObj PdfCore.defaultOpts)) = false ->
  getPath p (VObj (PdfCore.mergeOpts (VObj raw))) = getPath p (VObj raw).
Proof. intros Hwf _. now apply mergeOpts_supplied_leaf. Qed.

Lemma mergeOpts_keeps_supplied_witness :
  getPath ["pdf"; "printBackground"]
    (VObj (PdfCore.mergeOpts (VObj [("pdf", VObj [("printBackground", VBool false)])])))
  = VBool false.
Proof.
  apply (mergeOpts_keeps_supplied
           [("pdf", VObj [("printBackground", VBool false)])]
           ["pdf"; "printBackground"]).
  - constructor.
    + repeat constructor; simpl; intuition.
    + intros k v [H|[]]; inversion H. constructor.
      * repeat constructor; simpl; intuition.
      * intros k' v' [H'|[]]; inversion H'; constructor.
  - reflexivity.
  - exact I.
  - discriminate.
  - reflexivity.
Defined.

(* ================================================================== *)
(** ** Further properties: [render] *)

(** X5.  A [render] call that returns went through the browser in this
    order and no other: launch, new page, viewport, media emulation (if
    [opts.emulateMedia] is truthy), [waitFor] (if [opts.waitFor] is a number
    or a string), navigation, scroll script (if [opts.scrollPage] is
    truthy), PDF export, close; and it returns the bytes of the export as
    they are. *)
Theorem render_success_trace (browser : PdfCore.Puppeteer) (_opts : value)
    (data : bytes) :
  let opts := PdfCore.mergeOpts _opts in
  outcome_of (PdfCore.render browser _opts) = Return data ->
  filter isBrowserCall (trace (PdfCore.render browser _opts))
  = ([EvLaunch; EvNewPage; EvSetViewport (getField "viewport" opts)]
     ++ (if truthy (getField "emulateMedia" opts)
         then [EvEmulateMedia "screen"] else [])
     ++ (if (isNumber (getField "waitFor" opts)
             || isString (getField "waitFor" opts))%bool
         then [EvWaitFor (getField "waitFor" opts)] else [])
     ++ [EvGoto (getField "url" opts) (getField "goto" opts)]
     ++ (if truthy (getField "scrollPage" opts) then [EvEvaluateScroll] else [])
     ++ [EvPdf (getField "pdf" opts); EvClose])%list
  /\ PdfCore.pdf browser (getField "pdf" opts) = Ok data.
Proof.
  unfold PdfCore.render, PdfCore.scrollPage.
  generalize (PdfCore.mergeOpts _opts) as opts. intros opts. cbv zeta.
  unfold trace, outcome_of, bind, call, emit, ret.
  destruct (PdfCore.pdf browser (getField "pdf" opts)) as [d|r] eqn:Epdf;
    step_outcomes; intros H; try discriminate H;
    inversion H; subst; split; reflexivity.
Qed.

Lemma render_success_trace_witness :
  filter isBrowserCall
    (trace (PdfCore.render (Mock.healthy Mock.pdfBytes) Mock.fullOpts))
  = [EvLaunch; EvNewPage;
     EvSetViewport (VObj [("width", VNum 1600); ("height", VNum 1200)]);
     EvEmulateMedia "screen"; EvWaitFor (VNum 100);
     EvGoto (VStr "https://example.com/")
       (VObj [("waitUntil", VStr "networkidle"); ("networkIdleTimeout", VNum 2000)]);
     EvEvaluateScroll;
     EvPdf (VObj [("format", VStr "A4"); ("printBackground", VBool true)]);
     EvClose].
Proof.
  apply (render_success_trace (Mock.healthy Mock.pdfBytes) Mock.fullOpts Mock.pdfBytes).
  reflexivity.
Defined.

(** X6.  When the navigation is rejected, [render] fails and calls nothing
    after it: no scroll script, no PDF export, no close. *)
Theorem render_stops_at_failed_navigation (browser : PdfCore.Puppeteer)
    (_opts : value) (reason : string) :
  let opts := PdfCore.mergeOpts _opts in
  PdfCore.goto browser (getField "url" opts) (getField "goto" opts) = Fail reason ->
  isReturn (outcome_of (PdfCore.render browser _opts)) = false
  /\ existsb afterNavigation (trace (PdfCore.render browser _opts)) = false.
Proof.
  unfold PdfCore.render, PdfCore.scrollPage.
  generalize (PdfCore.mergeOpts _opts) as opts. intros opts. cbv zeta.
  intros Hgoto. rewrite Hgoto.
  unfold trace, outcome_of, bind, call, emit, ret.
  step_outcomes; split; reflexivity.
Qed.

Lemma render_stops_at_failed_navigation_witness :
  isReturn (outcome_of (PdfCore.render (Mock.failing Mock.StepGoto Mock.pdfBytes)
                          Mock.fullOpts)) = false
  /\ existsb afterNavigation
       (trace (PdfCore.render (Mock.failing Mock.StepGoto Mock.pdfBytes) Mock.fullOpts))
     = false.
Proof.
  apply (render_stops_at_failed_navigation
           (Mock.failing Mock.StepGoto Mock.pdfBytes) Mock.fullOpts "navigation").
  reflexivity.
Defined.

(** X7.  [render] raises nothing of its own: when it fails, it fails with
    the rejection of one of the browser calls it made, and with the reason
    that call gave. *)
Theorem render_fails_with_a_rejection (browser : PdfCore.Puppeteer)
    (_opts : value) (e : error) :
  let opts := PdfCore.mergeOpts _opts in
  outcome_of (PdfCore.render browser _opts) = Throw e ->
  exists reason,
    e = Rejected reason
    /\ (PdfCore.launch browser = Fail reason
        \/ PdfCore.newPage browser = Fail reason
        \/ PdfCore.setViewport browser (getField "viewport" opts) = Fail reason
        \/ PdfCore.emulateMedia browser "screen" = Fail reason
        \/ PdfCore.waitFor browser (getField "waitFor" opts) = Fail reason
        \/ PdfCore.goto browser (getField "url" opts) (getField "goto" opts)
           = Fail reason
        \/ PdfCore.evaluate browser = Fail reason
        \/ PdfCore.pdf browser (getField "pdf" opts) = Fail reason
        \/ PdfCore.close browser = Fail reason).
Proof.
  unfold PdfCore.render, PdfCore.scrollPage.
  generalize (PdfCore.mergeOpts _opts) as opts. intros opts. cbv zeta.
  unfold outcome_of, bind, call, emit, ret.
  destruct (PdfCore.launch browser) as [[]|];
    [|intros H; inversion H; eexists; split; [reflexivity|tauto]].
  destruct (PdfCore.newPage browser) as [[]|];
    [|intros H; inversion H; eexists; split; [reflexivity|tauto]].
  destruct (PdfCore.setViewport browser (getField "viewport" opts)) as [[]|];
    [|intros H; inversion H; eexists; split; [reflexivity|tauto]].
  destruct (PdfCore.goto browser (getField "url" opts) (getField "goto" opts))
    as [[]|] eqn:Egoto.
  2: { destruct (truthy (getField "emulateMedia" opts));
       [destruct (PdfCore.emulateMedia browser "screen") as [[]|]|];
       (destruct (isNumber (getField "waitFor" opts) || isString (getField "waitFor" opts))%bool;
        [destruct (PdfCore.waitFor browser (getField "waitFor" opts)) as [[]|]|]);
       cbn; intros H; inversion H; eexists; split; try reflexivity; tauto. }
  destruct (PdfCore.pdf browser (getField "pdf" opts)) as [d|] eqn:Epdf;
    destruct (PdfCore.close browser) as [[]|] eqn:Eclose;
    (destruct (truthy (getField "emulateMedia" opts));
     [destruct (PdfCore.emulateMedia browser "screen") as [[]|]|]);
    (destruct (isNumber (getField "waitFor" opts) || isString (getField "waitFor" opts))%bool;
     [destruct (PdfCore.waitFor browser (getField "waitFor" opts)) as [[]|]|]);
    (destruct (truthy (getField "scrollPage" opts));
     [destruct (PdfCore.evaluate browser) as [[]|]|]);
    cbn; intros H; try discriminate H;
    inversion H; eexists; split; try reflexivity; tauto.
Qed.

Lemma render_fails_with_a_rejection_witness :
  exists reason,
    Rejected "export" = Rejected reason
    /\ (@Ok unit tt = Fail reason \/ @Ok unit tt = Fail reason
        \/ @Ok unit tt = Fail reason \/ @Ok unit tt = Fail reason
        \/ @Ok unit tt = Fail reason \/ @Ok unit tt = Fail reason
        \/ @Ok unit tt = Fail reason
        \/ @Fail bytes "export" = Fail reason \/ @Ok unit tt = Fail reason).
Proof.
  apply (render_fails_with_a_rejection
           (Mock.failing Mock.StepPdf Mock.pdfBytes) Mock.fullOpts (Rejected "export")).
  reflexivity.
Defined.

(* ================================================================== *)
(** ** Further properties: the scroll script *)

Lemma scroll_script_total_witness :
  exists st s t,
    ScrollScript.script (ScrollScript.staticDocument 1200 3000) 151 0 = Some st
    /\ ScrollScript.settled st = Some (s, t) /\ t <= 30000.
Proof.
  apply (scroll_script_total (ScrollScript.staticDocument 1200 3000) 0 151).
  apply le_n.
Defined.

(** X9.  How the scroll script settled tells what the page did.  A resolved
    promise means that the stop test first held at a scroll step [k <= 147],
    that the promise resolved at [200 k + 500] ms and that the page was
    scrolled back to the top after that step; a rejected promise means that
    the stop test failed at each of the steps 0..147 and that the rejection
    came at 30000 ms. *)
Theorem scroll_script_settlement {page : Type} (W : ScrollScript.Window page)
    (w : page) (fuel : nat) (st : ScrollScript.loop page)
    (s : ScrollScript.settlement) (t : Z) :
  (151 <= fuel)%nat ->
  ScrollScript.script W fuel w = Some st ->
  ScrollScript.settled st = Some (s, t) ->
  match s with
  | ScrollScript.Resolved =>
      exists k, (k <= 147)%nat
        /\ ScrollScript.stopsAt W k w = true
        /\ (forall j, (j < k)%nat -> ScrollScript.stopsAt W j w = false)
        /\ t = 200 * Z.of_nat k + 500
        /\ ScrollScript.win st
           = ScrollScript.elapse W 500
               (ScrollScript.scrollTo W 0 (ScrollScript.scrolled W k w))
  | ScrollScript.TimedOut =>
      t = 30000
      /\ forall j, (j <= 147)%nat -> ScrollScript.stopsAt W j w = false
  end.
Proof.
  intros Hfuel Hst Hset.
  destruct (first_or_none (fun j => ScrollScript.stopsAt W j w) 148)
    as [Hnone|[k [Hk [Hstop Hfirst]]]].
  - destruct (script_times_out W w fuel Hfuel) as [st' [Hst' Hset']].
    + intros j Hj. apply Hnone. lia.
    + rewrite Hst in Hst'. inversion Hst'; subst st'.
      rewrite Hset in Hset'. inversion Hset'; subst.
      split; [reflexivity|]. intros j Hj. apply Hnone. lia.
  - destruct (script_resolves W w fuel k) as [st' [Hst' [Hset' Hwin]]];
      auto; try lia.
    rewrite Hst in Hst'. inversion Hst'; subst st'.
    rewrite Hset in Hset'. inversion Hset'; subst.
    exists k. repeat split; auto. lia.
Qed.

Lemma scroll_script_settlement_witness :
  exists k, (k <= 147)%nat
    /\ ScrollScript.stopsAt (ScrollScript.staticDocument 1200 3000) k 0 = true
    /\ (forall j, (j < k)%nat ->
          ScrollScript.stopsAt (ScrollScript.staticDocument 1200 3000) j 0 = false)
    /\ 700 = 200 * Z.of_nat k + 500
    /\ 0 = 0.
Proof.
  apply (scroll_script_settlement (ScrollScript.staticDocument 1200 3000) 0 151
           {| ScrollScript.now := 700; ScrollScript.win := 0;
              ScrollScript.timers :=
                [{| ScrollScript.due := 30000; ScrollScript.cb := ScrollScript.CbReject |}];
              ScrollScript.settled := Some (ScrollScript.Resolved, 700) |}
           ScrollScript.Resolved 700).
  - apply le_n.
  - reflexivity.
  - reflexivity.
Defined.

Lemma static_beforeScroll (viewportHeight documentHeight : Z) (k : nat) :
  400 < viewportHeight -> viewportHeight <= documentHeight ->
  ScrollScript.beforeScroll
    (ScrollScript.staticDocument viewportHeight documentHeight)
    (viewportHeight - 400) k 0
  = Z.min (Z.of_nat k * (viewportHeight - 400)) (documentHeight - viewportHeight).
Proof.
  intros Hv Hd. induction k as [|k IH].
  - simpl. lia.
  - cbn [ScrollScript.beforeScroll]. rewrite IH.
    cbn [ScrollScript.staticDocument ScrollScript.elapse ScrollScript.scrollBy].
    rewrite Nat2Z.inj_succ, Z.mul_succ_l.
    set (x := Z.of_nat k * (viewportHeight - 400)).
    assert (0 <= x) by (unfold x; nia). lia.
Qed.

Lemma static_stopsAt (viewportHeight documentHeight : Z) (k : nat) :
  400 < viewportHeight -> viewportHeight <= documentHeight ->
  ScrollScript.stopsAt (ScrollScript.staticDocument viewportHeight documentHeight) k 0
  = (documentHeight - viewportHeight - 400
     <? (Z.of_nat k + 1) * (viewportHeight - 400)).
Proof.
  intros Hv Hd.
  unfold ScrollScript.stopsAt, ScrollScript.scrolled, ScrollScript.nearBottom,
    ScrollScript.bottomPos, ScrollScript.bottomThreshold.
  cbn [ScrollScript.staticDocument ScrollScript.innerHeight
       ScrollScript.scrollHeight ScrollScript.pageYOffset].
  rewrite static_beforeScroll by assumption.
  cbn [ScrollScript.staticDocument ScrollScript.scrollBy].
  rewrite Z.mul_add_distr_r, Z.mul_1_l.
  set (x := Z.of_nat k * (viewportHeight - 400)).
  assert (0 <= x) by (unfold x; nia).
  destruct (Z.ltb_spec (documentHeight - viewportHeight - 400)
              (x + (viewportHeight - 400)));
    [apply Z.ltb_lt | apply Z.ltb_ge]; lia.
Qed.

(** X10.  On a page that does not change, of height [documentHeight] in a
    viewport of height [viewportHeight] above 400 px, the scroll script
    resolves exactly when the document is less than 148 scroll steps and
    one threshold longer than the viewport; it rejects any longer document.
    With the default viewport of 1200 px the limit is 120000 px. *)
Theorem static_document_limit (viewportHeight documentHeight : Z) (fuel : nat) :
  400 < viewportHeight -> viewportHeight <= documentHeight ->
  (151 <= fuel)%nat ->
  resolves (ScrollScript.staticDocument viewportHeight documentHeight) fuel 0
  = (documentHeight <? viewportHeight + 400 + 148 * (viewportHeight - 400)).
Proof.
  intros Hv Hd Hfuel. unfold resolves.
  set (W := ScrollScript.staticDocument viewportHeight documentHeight).
  destruct (Z.ltb_spec documentHeight
              (viewportHeight + 400 + 148 * (viewportHeight - 400))) as [Hlt|Hge].
  - destruct (first_or_none (fun j => ScrollScript.stopsAt W j 0) 148)
      as [Hnone|[k [Hk [Hstop Hfirst]]]].
    + exfalso. specialize (Hnone 147%nat (Nat.lt_succ_diag_r 147)).
      unfold W in Hnone. rewrite static_stopsAt in Hnone by assumption.
      apply Z.ltb_ge in Hnone. lia.
    + destruct (script_resolves W 0 fuel k) as [st [Hst [Hset _]]];
        auto; try lia.
      rewrite Hst. simpl. now rewrite Hset.
  - destruct (script_times_out W 0 fuel Hfuel) as [st [Hst Hset]].
    + intros j Hj. unfold W. rewrite static_stopsAt by assumption.
      apply Z.ltb_ge. nia.
    + rewrite Hst. simpl. now rewrite Hset.
Qed.

Lemma static_document_limit_witness :
  resolves (ScrollScript.staticDocument 1200 119999) 151 0 = true
  /\ resolves (ScrollScript.staticDocument 1200 120000) 151 0 = false.
Proof.
  split.
  - apply (static_document_limit 1200 119999 151); [reflexivity | | apply le_n].
    intros H; discriminate H.
  - apply (static_document_limit 1200 120000 151); [reflexivity | | apply le_n].
    intros H; discriminate H.
Defined.

(* ================================================================== *)
(** ** Further properties: the resolver *)

Lemma endsWith_spec (s suffix : string) :
  Str.endsWith s suffix = true <-> exists p, s = p ++ suffix.
Proof.
  split.
  - induction s as [|c s IH]; cbn [Str.endsWith]; intros H.
    + rewrite orb_false_r in H. apply String.eqb_eq in H. exists "". now subst.
    + apply orb_true_iff in H. destruct H as [H|H].
      * apply String.eqb_eq in H. exists "". now subst.
      * destruct (IH H) as [p Hp]. exists (String c p). simpl. now rewrite Hp.
  - intros [p Hp]. subst s. induction p as [|c p IH].
    + cbn [append]. destruct suffix; cbn [Str.endsWith];
        rewrite String.eqb_refl; reflexivity.
    + cbn [append Str.endsWith]. rewrite IH. apply orb_true_r.
Qed.

Lemma toLowerCase_app (a b : string) :
  Str.toLowerCase (a ++ b) = Str.toLowerCase a ++ Str.toLowerCase b.
Proof. induction a as [|c a IH]; simpl; [reflexivity | now rewrite IH]. Qed.

Lemma toLowerCase_split (a b : string) :
  forall s, Str.toLowerCase s = a ++ b ->
  exists s1 s2, s = s1 ++ s2 /\ Str.toLowerCase s1 = a /\ Str.toLowerCase s2 = b.
Proof.
  induction a as [|c a IH]; intros s H.
  - exists "", s. auto.
  - destruct s as [|c' s]; [discriminate|]. simpl in H. inversion H.
    destruct (IH s H2) as [s1 [s2 [Hs [H1' H2']]]].
    exists (String c' s1), s2. simpl. subst. auto.
Qed.

(** A content type names a PDF when its last three letters are p, d, f in
    any case. *)
Lemma pdf_content_type (ct : string) :
  Str.endsWith (Str.toLowerCase ct) "pdf" = true
  <-> exists head tail, ct = head ++ tail /\ Str.toLowerCase tail = "pdf".
Proof.
  rewrite endsWith_spec. split.
  - intros [p Hp]. destruct (toLowerCase_split p "pdf" ct Hp) as [s1 [s2 [H [_ H2]]]].
    now exists s1, s2.
  - intros [head [tail [H Ht]]]. exists (Str.toLowerCase head).
    now rewrite H, toLowerCase_app, Ht.
Qed.

(** X13.  When the resolver of pdf-http.js gets to the HEAD request and the
    response has a content type, it returns the URL exactly when the last
    three letters of the content type are p, d, f in any case, and [null]
    otherwise, after that one request. *)
Theorem probe_content_type (parseURL : string -> option Url.URL)
    (fetchHead : string -> outcome Response) (raw_url : string)
    (url : Url.URL) (ct : string) :
  Str.endsWith raw_url ".pdf" = false ->
  parseURL raw_url = Some url ->
  PdfHttp.knownSite url = None ->
  fetchHead raw_url = Ok {| contentType := Some ct |} ->
  let r := PdfHttp.getExistingPdfUrl parseURL fetchHead (VStr raw_url) in
  trace r = [EvFetchHead raw_url]
  /\ (outcome_of r = Return (VStr raw_url) \/ outcome_of r = Return VNull)
  /\ (outcome_of r = Return (VStr raw_url)
      <-> exists head tail, ct = head ++ tail /\ Str.toLowerCase tail = "pdf").
Proof.
  intros Hext Hparse Hsite Hfetch. cbv zeta.
  rewrite (resolver_reaches_probe _ _ _ _ Hext Hparse Hsite), probe_spec, Hfetch.
  cbn [contentType trace outcome_of fst snd].
  rewrite <- pdf_content_type.
  destruct (Str.endsWith (Str.toLowerCase ct) "pdf"); repeat split; auto;
    intros H; discriminate H.
Qed.

Lemma probe_content_type_witness :
  let r := PdfHttp.getExistingPdfUrl Url.parsePlain
             (Mock.answering (Some "Application/PDF"))
             (VStr "https://example.com/paper") in
  trace r = [EvFetchHead "https://example.com/paper"]
  /\ (outcome_of r = Return (VStr "https://example.com/paper")
      \/ outcome_of r = Return VNull)
  /\ (outcome_of r = Return (VStr "https://example.com/paper")
      <-> exists head tail,
            "Application/PDF" = head ++ tail /\ Str.toLowerCase tail = "pdf").
Proof.
  apply (probe_content_type Url.parsePlain (Mock.answering (Some "Application/PDF"))
           "https://example.com/paper"
           {| Url.authority := "https://example.com"; Url.hostname := "example.com";
              Url.pathname := "/paper"; Url.search := ""; Url.hash := "" |}
           "Application/PDF"); reflexivity.
Defined.

(** X11.  For a URL string that does not end in [.pdf], with the host
    [openreview.net] and the path [/forum] or [/pdf], the resolver returns
    the same URL with the path [/pdf], query string and fragment kept,
    without any request. *)
Theorem openreview_url_is_rewritten (parseURL : string -> option Url.URL)
    (fetchHead : string -> outcome Response) (raw_url : string) (url : Url.URL) :
  Str.endsWith raw_url ".pdf" = false ->
  parseURL raw_url = Some url ->
  Url.hostname url = "openreview.net" ->
  Url.pathname url = "/forum" \/ Url.pathname url = "/pdf" ->
  PdfHttp.getExistingPdfUrl parseURL fetchHead (VStr raw_url)
  = ([], Return (VStr (Url.authority url ++ "/pdf" ++ Url.search url ++ Url.hash url))).
Proof.
  intros Hext Hparse Hhost Hpath.
  unfold PdfHttp.getExistingPdfUrl, Str.isPDFPattern, PdfHttp.knownSite.
  rewrite Hext, Hparse, Hhost.
  change (String.eqb "openreview.net" "arxiv.org") with false.
  change (String.eqb "openreview.net" "openreview.net") with true.
  cbv iota.
  destruct Hpath as [-> | ->]; reflexivity.
Qed.

Lemma openreview_url_is_rewritten_witness :
  PdfHttp.getExistingPdfUrl Url.parsePlain Mock.offline
    (VStr "https://openreview.net/forum?id=abc#top")
  = ([], Return (VStr "https://openreview.net/pdf?id=abc#top")).
Proof.
  apply (openreview_url_is_rewritten Url.parsePlain Mock.offline
           "https://openreview.net/forum?id=abc#top"
           {| Url.authority := "https://openreview.net";
              Url.hostname := "openreview.net"; Url.pathname := "/forum";
              Url.search := "?id=abc"; Url.hash := "#top" |});
    try reflexivity.
  left. reflexivity.
Defined.

Lemma knownSite_hosts (url : Url.URL) (r : string) :
  PdfHttp.knownSite url = Some r ->
  Url.hostname url = "arxiv.org" \/ Url.hostname url = "openreview.net".
Proof.
  unfold PdfHttp.knownSite.
  destruct (String.eqb (Url.hostname url) "arxiv.org") eqn:E1.
  - left. now apply String.eqb_eq.
  - destruct (String.eqb (Url.hostname url) "openreview.net") eqn:E2.
    + right. now apply String.eqb_eq.
    + discriminate.
Qed.

(** X12.  What the resolver of pdf-http.js does and does not do.  It makes
    at most one call, a HEAD request to the URL it was given, and none for
    anything that is not a string, on which it throws a TypeError.  What it
    returns is [null], the URL itself, or, for the hosts [arxiv.org] and
    [openreview.net] only, another URL produced without a request. *)
Theorem resolver_effects (parseURL : string -> option Url.URL)
    (fetchHead : string -> outcome Response) (v : value) :
  let r := PdfHttp.getExistingPdfUrl parseURL fetchHead v in
  (trace r = [] \/ exists s, v = VStr s /\ trace r = [EvFetchHead s])
  /\ (isString v = false -> r = ([], Throw TypeError))
  /\ (forall w, outcome_of r = Return w ->
        w = VNull \/ w = v
        \/ exists s url,
             v = VStr s /\ parseURL s = Some url /\ trace r = []
             /\ isString w = true
             /\ (Url.hostname url = "arxiv.org"
                 \/ Url.hostname url = "openreview.net")).
Proof.
  cbv zeta. unfold PdfHttp.getExistingPdfUrl.
  destruct v as [| | | |s|]; try (repeat split; auto; intros; discriminate).
  destruct (Str.isPDFPattern s).
  { repeat split; auto; try discriminate. intros w H. inversion H. auto. }
  destruct (parseURL s) as [url|] eqn:Hparse.
  2: { repeat split; auto; intros; discriminate. }
  destruct (PdfHttp.knownSite url) as [pdfUrl|] eqn:Hsite.
  - repeat split; auto; try discriminate.
    intros w H. inversion H. right. right. exists s, url.
    repeat split; auto. eapply knownSite_hosts, Hsite.
  - rewrite probe_spec. cbn [trace outcome_of fst snd].
    split; [right; exists s; auto|]. split; [discriminate|].
    intros w. destruct (fetchHead s) as [[[ct|]]|]; try discriminate.
    cbn [contentType]. destruct (Str.endsWith (Str.toLowerCase ct) "pdf");
      intros H; inversion H; auto.
Qed.

Lemma resolver_effects_witness :
  PdfHttp.getExistingPdfUrl Url.parsePlain Mock.offline (VNum 7)
  = ([], Throw TypeError).
Proof.
  apply (resolver_effects Url.parsePlain Mock.offline (VNum 7)). reflexivity.
Defined.

Lemma stripPrefix_sound (p : string) :
  forall s r, Str.stripPrefix p s = Some r -> s = p ++ r.
Proof.
  induction p as [|a p IH]; intros s r H; simpl in H.
  - now inversion H.
  - destruct s as [|b s]; [discriminate|].
    destruct (Ascii.eqb a b) eqn:E; [|discriminate].
    apply Ascii.eqb_eq in E. subst b. simpl. f_equal. now apply IH.
Qed.

Lemma spanDigits_spec (s : string) :
  forall d r, Str.spanDigits s = (d, r) ->
  s = d ++ r /\ Str.allChars Str.isDigit d = true /\ startsWithDigit r = false.
Proof.
  unfold Str.allChars.
  induction s as [|c s IH]; intros d r H; cbn [Str.spanDigits] in H.
  - inversion H. auto.
  - destruct (Str.isDigit c) eqn:E.
    + destruct (Str.spanDigits s) as [d' r'] eqn:E'. inversion H; subst.
      destruct (IH d' r eq_refl) as [Hs [Hd Hr]].
      repeat split; auto.
      * simpl. now rewrite <- Hs.
      * simpl. now rewrite E, Hd.
    + inversion H; subst. repeat split; auto.
Qed.

Lemma append_assoc (a b c : string) : (a ++ b) ++ c = a ++ (b ++ c).
Proof. induction a as [|x a IH]; simpl; [reflexivity | now rewrite IH]. Qed.

Lemma matchId_sound (s id : string) :
  Str.matchId s = Some id ->
  exists d1 d2 rest,
    s = id ++ rest /\ id = d1 ++ "." ++ d2
    /\ Str.allChars Str.isDigit d1 = true /\ d1 <> ""
    /\ Str.allChars Str.isDigit d2 = true /\ d2 <> ""
    /\ startsWithDigit rest = false.
Proof.
  unfold Str.matchId.
  destruct (Str.spanDigits s) as [d1 r1] eqn:E1.
  destruct (spanDigits_spec s d1 r1 E1) as [Hs [Hd1 _]].
  destruct d1 as [|c1 d1]; [discriminate|].
  destruct r1 as [|c r2]; [discriminate|].
  destruct c as [[] [] [] [] [] [] [] []]; try discriminate.
  destruct (Str.spanDigits r2) as [d2 rest] eqn:E2.
  destruct (spanDigits_spec r2 d2 rest E2) as [Hr2 [Hd2 Hrest]].
  destruct d2 as [|c2 d2]; [discriminate|].
  intros H. inversion H; subst id.
  exists (String c1 d1), (String c2 d2), rest.
  repeat split; auto; try discriminate.
  rewrite Hs, Hr2. symmetry.
  exact (append_assoc (String c1 d1) (String "." (String c2 d2)) rest).
Qed.

Lemma matchAbsOrPdfId_sound (s kind id : string) :
  Str.matchAbsOrPdfId s = Some (kind, id) ->
  (kind = "abs" \/ kind = "pdf")
  /\ exists rest, s = kind ++ "/" ++ rest /\ Str.matchId rest = Some id.
Proof.
  unfold Str.matchAbsOrPdfId.
  destruct (Str.stripPrefix "abs/" s) as [r|] eqn:Eabs.
  - destruct (Str.matchId r) eqn:Eid; [|discriminate].
    intros H. inversion H; subst. split; [now left|].
    exists r. split; auto. now apply (stripPrefix_sound "abs/").
  - destruct (Str.stripPrefix "pdf/" s) as [r|] eqn:Epdf; [|discriminate].
    destruct (Str.matchId r) eqn:Eid; [|discriminate].
    intros H. inversion H; subst. split; [now right|].
    exists r. split; auto. now apply (stripPrefix_sound "pdf/").
Qed.

(** X14.  For an [arxiv.org] URL, an answer of the resolver that took no
    request is the URL itself or [https://arxiv.org/pdf/<id>], where the
    path of the URL starts with [/abs/<id>] or [/pdf/<id>] and [<id>] is
    the longest run of digits, a dot, digits there: nothing else of the
    request gets into the redirect target. *)
Theorem arxiv_answer_shape (parseURL : string -> option Url.URL)
    (fetchHead : string -> outcome Response) (raw_url : string)
    (url : Url.URL) (w : value) :
  parseURL raw_url = Some url ->
  Url.hostname url = "arxiv.org" ->
  PdfHttp.getExistingPdfUrl parseURL fetchHead (VStr raw_url) = ([], Return w) ->
  w = VStr raw_url
  \/ exists kind d1 d2 rest,
       (kind = "abs" \/ kind = "pdf")
       /\ Str.allChars Str.isDigit d1 = true /\ d1 <> ""
       /\ Str.allChars Str.isDigit d2 = true /\ d2 <> ""
       /\ startsWithDigit rest = false
       /\ Url.pathname url = "/" ++ kind ++ "/" ++ d1 ++ "." ++ d2 ++ rest
       /\ w = VStr ("https://arxiv.org/pdf/" ++ d1 ++ "." ++ d2).
Proof.
  intros Hparse Hhost.
  unfold PdfHttp.getExistingPdfUrl, PdfHttp.knownSite.
  destruct (Str.isPDFPattern raw_url).
  { intros H. inversion H. now left. }
  rewrite Hparse, Hhost, String.eqb_refl.
  destruct (Str.arxivIdPattern (Url.pathname url)) as [[kind id]|] eqn:Eid.
  2: { rewrite probe_spec. intros H. inversion H. }
  intros Hw. inversion Hw as [Hw']. clear Hw. right.
  unfold Str.arxivIdPattern in Eid.
  destruct (Str.stripPrefix "/" (Url.pathname url)) as [r|] eqn:Eslash;
    [|discriminate].
  apply (stripPrefix_sound "/") in Eslash.
  destruct (matchAbsOrPdfId_sound r kind id Eid) as [Hkind [r0 [Hr Hm]]].
  destruct (matchId_sound r0 id Hm)
    as [d1 [d2 [rest [Hr0 [Hid [H1 [N1 [H2 [N2 Hrest]]]]]]]]].
  exists kind, d1, d2, rest. repeat split; auto.
  - rewrite Eslash, Hr, Hr0, Hid, !append_assoc. reflexivity.
  - now rewrite Hid.
Qed.

Lemma arxiv_answer_shape_witness :
  VStr "https://arxiv.org/pdf/2101.00001" = VStr "https://arxiv.org/abs/2101.00001v2"
  \/ exists kind d1 d2 rest,
       (kind = "abs" \/ kind = "pdf")
       /\ Str.allChars Str.isDigit d1 = true /\ d1 <> ""
       /\ Str.allChars Str.isDigit d2 = true /\ d2 <> ""
       /\ startsWithDigit rest = false
       /\ "/abs/2101.00001v2" = "/" ++ kind ++ "/" ++ d1 ++ "." ++ d2 ++ rest
       /\ VStr "https://arxiv.org/pdf/2101.00001"
          = VStr ("https://arxiv.org/pdf/" ++ d1 ++ "." ++ d2).
Proof.
  apply (arxiv_answer_shape Url.parsePlain Mock.offline
           "https://arxiv.org/abs/2101.00001v2"
           {| Url.authority := "https://arxiv.org"; Url.hostname := "arxiv.org";
              Url.pathname := "/abs/2101.00001v2"; Url.search := "";
              Url.hash := "" |}); reflexivity.
Defined.

(** X15.  The earlier resolver takes any character for the dot of
    [arxiv.org]: a URL written [http://arxiv] or [https://arxiv], one
    character that is no line break, [org/], then [abs/<id>] or [pdf/<id>],
    and not ending in [.pdf], is answered with [https://arxiv.org/pdf/<id>]
    whatever host it names. *)
Theorem earlier_resolver_any_dot (fetchHead : string -> outcome Response)
    (scheme kind d1 d2 rest : string) (c : ascii) :
  let raw_url := scheme ++ "://arxiv" ++ String c ("org/" ++ kind ++ "/"
                                                    ++ d1 ++ "." ++ d2 ++ rest) in
  scheme = "http" \/ scheme = "https" ->
  Str.isLineTerminator c = false ->
  kind = "abs" \/ kind = "pdf" ->
  Str.allChars Str.isDigit d1 = true -> d1 <> "" ->
  Str.allChars Str.isDigit d2 = true -> d2 <> "" ->
  startsWithDigit rest = false ->
  Str.endsWith raw_url ".pdf" = false ->
  PdfHttpEarlier.getExistingPdfUrl fetchHead (VStr raw_url)
  = ([], Return (VStr ("https://arxiv.org/pdf/" ++ d1 ++ "." ++ d2))).
Proof.
  cbv zeta. intros Hscheme Hc Hkind H1 N1 H2 N2 Hrest Hext.
  assert (Hid := matchAbsOrPdfId_digits kind d1 d2 rest Hkind H1 N1 H2 N2 Hrest).
  unfold PdfHttpEarlier.getExistingPdfUrl, Str.isPDFPattern. rewrite Hext.
  assert (Hm : Str.arxivUrlPattern
                 (scheme ++ "://arxiv" ++ String c ("org/" ++ kind ++ "/"
                                                     ++ d1 ++ "." ++ d2 ++ rest))
               = Some (kind, d1 ++ "." ++ d2)).
  { unfold Str.arxivUrlPattern.
    destruct Hscheme as [-> | ->]; cbn; rewrite Hc; exact Hid. }
  now rewrite Hm.
Qed.

Lemma earlier_resolver_any_dot_witness :
  PdfHttpEarlier.getExistingPdfUrl Mock.offline
    (VStr "https://arxiv-org/abs/2101.00001")
  = ([], Return (VStr "https://arxiv.org/pdf/2101.00001")).
Proof.
  apply (earlier_resolver_any_dot Mock.offline "https" "abs" "2101" "00001" "" "-");
    try reflexivity; try discriminate.
  - right. reflexivity.
  - left. reflexivity.
Defined.

(* ================================================================== *)
(** ** Further properties: the routes *)

Lemma resolver_nonstring parseURL fetchHead v :
  isString v = false ->
  PdfHttp.getExistingPdfUrl parseURL fetchHead v = throw TypeError.
Proof. destruct v; try reflexivity. discriminate. Qed.

Lemma bind_returned {A B} (t : list event) (a : A) (f : A -> M B) :
  bind (t, Return a) f = ((t ++ fst (f a))%list, snd (f a)).
Proof. unfold bind. now destruct (f a). Qed.

Lemma bind_thrown {A B} (t : list event) (e : error) (f : A -> M B) :
  bind (t, Throw e) f = (t, Throw e).
Proof. reflexivity. Qed.

Lemma getOptsFromQuery_field_url q :
  getField "url" (Routes.getOptsFromQuery q) = getField "url" q.
Proof. reflexivity. Qed.


(** What a route does once the options are an object, by what the resolver
    answers for [opts.url] and how [render] ends. *)
Lemma redirectOrRender_spec resolver browser (fs : obj) :
  Routes.redirectOrRender resolver browser (VObj fs)
  = match resolver (getField "url" fs) with
    | (t, Throw e) => (t, Throw e)
    | (t, Return w) =>
        if notNullish w then ((t ++ [EvRedirect w])%list, Return tt)
        else
          match PdfCore.render browser (VObj fs) with
          | (t2, Throw e) => ((t ++ t2)%list, Throw e)
          | (t2, Return data) =>
              ((t ++ t2
                ++ (if truthy (getField "attachmentName" fs)
                    then [EvAttachment (getField "attachmentName" fs)] else [])
                ++ [EvSet "content-type" "application/pdf"; EvSend data])%list,
               Return tt)
          end
    end.
Proof.
  unfold Routes.redirectOrRender, Routes.sendPdf. cbn [member]. rewrite bind_ret.
  destruct (resolver (getField "url" fs)) as [t [w|e]]; [|reflexivity].
  rewrite bind_returned. destruct (notNullish w); [reflexivity|].
  destruct (PdfCore.render browser (VObj fs)) as [t2 [data|e]].
  - rewrite bind_returned, bind_ret. cbn [fst snd].
    destruct (truthy (getField "attachmentName" fs)); reflexivity.
  - rewrite bind_thrown. reflexivity.
Qed.

(** X16.  A GET request whose [url] parameter is missing, or is not a
    single string, fails with a TypeError before anything is called: no
    request, no browser, no response. *)
Theorem getRender_needs_url (parseURL : string -> option Url.URL)
    (fetchHead : string -> outcome Response) (browser : PdfCore.Puppeteer)
    (req : Request) :
  isString (getField "url" (query req)) = false ->
  getRender parseURL fetchHead browser req = ([], Throw TypeError).
Proof.
  intros H. unfold getRender, Routes.getRender.
  rewrite redirectOrRender_spec, getOptsFromQuery_field_url.
  now rewrite (resolver_nonstring _ _ _ H).
Qed.

Lemma getRender_needs_url_witness :
  getRender Url.parsePlain Mock.offline (Mock.healthy Mock.pdfBytes)
    {| headers := []; body := VUndef; query := [("scrollPage", VStr "true")] |}
  = ([], Throw TypeError).
Proof.
  apply (getRender_needs_url Url.parsePlain Mock.offline (Mock.healthy Mock.pdfBytes)
           {| headers := []; body := VUndef; query := [("scrollPage", VStr "true")] |}).
  reflexivity.
Defined.

Lemma postRender_raw_body resolver browser req :
  (forall v, isString v = false -> resolver v = throw TypeError) ->
  isTheString (getField "content-type" (headers req)) "application/json" = false ->
  Routes.postRender resolver browser req
  = if isString (getField "url" (query req))
    then ([], Throw (HttpError 400 "url query parameter is not allowed when body is HTML"))
    else ([], Throw TypeError).
Proof.
  intros Hres Hct. unfold Routes.postRender. rewrite Hct. cbv iota.
  destruct (isString (getField "url" (query req))) eqn:Eurl.
  - reflexivity.
  - rewrite bind_ret, redirectOrRender_spec, getOptsFromQuery_url.
    now rewrite (Hres _ Eurl).
Qed.

Lemma postRender_json_body resolver browser req :
  (forall v, isString v = false -> resolver v = throw TypeError) ->
  isTheString (getField "content-type" (headers req)) "application/json" = true ->
  isString (get (body req) "url") = false ->
  Routes.postRender resolver browser req
  = if isString (get (body req) "html")
    then ([], Throw TypeError)
    else ([], Throw (HttpError 400 "Body must contain url or html")).
Proof.
  intros Hres Hct Hurl. unfold Routes.postRender. rewrite Hct, Hurl. cbv iota.
  destruct (isString (get (body req) "html")) eqn:Ehtml; cbn [orb negb].
  - rewrite bind_ret.
    destruct (body req) as [| | | | |fs]; try discriminate.
    rewrite redirectOrRender_spec. cbn [get] in Hurl.
    now rewrite (Hres _ Hurl).
  - reflexivity.
Qed.

(** X17.  The POST route gets to the network or the browser only for a
    body sent as [application/json] that holds a string [url].  Every other
    request fails before any call, with status 400 or with a TypeError: a
    raw HTML body is never rendered. *)
Theorem postRender_needs_json_url (parseURL : string -> option Url.URL)
    (fetchHead : string -> outcome Response) (browser : PdfCore.Puppeteer)
    (req : Request) :
  (isTheString (getField "content-type" (headers req)) "application/json"
   && isString (get (body req) "url"))%bool = false ->
  exists e,
    postRender parseURL fetchHead browser req = ([], Throw e)
    /\ (e = TypeError \/ exists message, e = HttpError 400 message).
Proof.
  intros H. unfold postRender.
  destruct (isTheString (getField "content-type" (headers req)) "application/json")
    eqn:Hct.
  - cbn [andb] in H.
    rewrite (postRender_json_body _ _ _ (resolver_nonstring _ _) Hct H).
    destruct (isString (get (body req) "html")); eexists; split; eauto.
  - rewrite (postRender_raw_body _ _ _ (resolver_nonstring _ _) Hct).
    destruct (isString (getField "url" (query req))); eexists; split; eauto.
Qed.

Lemma postRender_needs_json_url_witness :
  exists e,
    postRender Url.parsePlain Mock.offline (Mock.healthy Mock.pdfBytes)
      {| headers := [("content-type", VStr "application/json; charset=utf-8")];
         body := VObj [("url", VStr "https://example.com/")]; query := [] |}
    = ([], Throw e)
    /\ (e = TypeError \/ exists message, e = HttpError 400 message).
Proof.
  apply (postRender_needs_json_url Url.parsePlain Mock.offline
           (Mock.healthy Mock.pdfBytes)
           {| headers := [("content-type", VStr "application/json; charset=utf-8")];
              body := VObj [("url", VStr "https://example.com/")]; query := [] |}).
  reflexivity.
Defined.

(** X18.  For a body that is not sent as [application/json], the POST route
    answers 400 "url query parameter is not allowed when body is HTML"
    exactly when the query string has a string [url], and it does so before
    any call. *)
Theorem postRender_raw_body_rejects_url (parseURL : string -> option Url.URL)
    (fetchHead : string -> outcome Response) (browser : PdfCore.Puppeteer)
    (req : Request) :
  isTheString (getField "content-type" (headers req)) "application/json" = false ->
  (postRender parseURL fetchHead browser req
   = ([], Throw (HttpError 400 "url query parameter is not allowed when body is HTML"))
   <-> isString (getField "url" (query req)) = true).
Proof.
  intros Hct. unfold postRender.
  rewrite (postRender_raw_body _ _ _ (resolver_nonstring _ _) Hct).
  destruct (isString (getField "url" (query req))); split; auto; discriminate.
Qed.

Lemma postRender_raw_body_rejects_url_witness :
  postRender Url.parsePlain Mock.offline (Mock.healthy Mock.pdfBytes)
    {| headers := [("content-type", VStr "text/html")];
       body := VStr "<h1>Hello</h1>";
       query := [("url", VStr "https://x.test")] |}
  = ([], Throw (HttpError 400 "url query parameter is not allowed when body is HTML")).
Proof.
  apply (postRender_raw_body_rejects_url Url.parsePlain Mock.offline
           (Mock.healthy Mock.pdfBytes)
           {| headers := [("content-type", VStr "text/html")];
              body := VStr "<h1>Hello</h1>";
              query := [("url", VStr "https://x.test")] |});
    reflexivity.
Defined.

(** X19.  When the resolver answers a URL, either route answers with a
    redirect to it and nothing else: what the resolver did, then the
    redirect; the browser is not launched and no PDF is sent. *)
Theorem routes_redirect (parseURL : string -> option Url.URL)
    (fetchHead : string -> outcome Response) (browser : PdfCore.Puppeteer)
    (req : Request) (s r : string) (t : list event) :
  PdfHttp.getExistingPdfUrl parseURL fetchHead (VStr s) = (t, Return (VStr r)) ->
  (getField "url" (query req) = VStr s ->
   getRender parseURL fetchHead browser req = ((t ++ [EvRedirect (VStr r)])%list, Return tt))
  /\ (isTheString (getField "content-type" (headers req)) "application/json" = true ->
      get (body req) "url" = VStr s ->
      postRender parseURL fetchHead browser req
      = ((t ++ [EvRedirect (VStr r)])%list, Return tt)).
Proof.
  intros Hres. split.
  - intros Hurl. unfold getRender, Routes.getRender.
    rewrite redirectOrRender_spec, getOptsFromQuery_field_url, Hurl, Hres.
    reflexivity.
  - intros Hct Hurl. unfold postRender, Routes.postRender.
    rewrite Hct, Hurl. cbn [isString orb negb]. rewrite bind_ret.
    destruct (body req) as [| | | | |fs]; try discriminate.
    cbn [get] in Hurl.
    rewrite redirectOrRender_spec, Hurl, Hres. reflexivity.
Qed.

Lemma routes_redirect_witness :
  getRender Url.parsePlain Mock.offline (Mock.healthy Mock.pdfBytes)
    {| headers := []; body := VUndef;
       query := [("url", VStr "https://example.com/doc.pdf")] |}
  = ([EvRedirect (VStr "https://example.com/doc.pdf")], Return tt)
  /\ postRender Url.parsePlain Mock.offline (Mock.healthy Mock.pdfBytes)
       {| headers := [("content-type", VStr "application/json")];
          body := VObj [("url", VStr "https://example.com/doc.pdf")];
          query := [] |}
     = ([EvRedirect (VStr "https://example.com/doc.pdf")], Return tt).
Proof.
  split.
  - apply (proj1 (routes_redirect Url.parsePlain Mock.offline
                    (Mock.healthy Mock.pdfBytes)
                    {| headers := []; body := VUndef;
                       query := [("url", VStr "https://example.com/doc.pdf")] |}
                    "https://example.com/doc.pdf" "https://example.com/doc.pdf" []
                    eq_refl)).
    reflexivity.
  - apply (proj2 (routes_redirect Url.parsePlain Mock.offline
                    (Mock.healthy Mock.pdfBytes)
                    {| headers := [("content-type", VStr "application/json")];
                       body := VObj [("url", VStr "https://example.com/doc.pdf")];
                       query := [] |}
                    "https://example.com/doc.pdf" "https://example.com/doc.pdf" []
                    eq_refl)); reflexivity.
Defined.




